(** * HRMS Lite: employees and attendance over a relational store

    A shallow embedding of [app/models.py], [app/schemas.py],
    [app/routers/employees.py] and [app/routers/attendance.py].

    The relational engine is an external collaborator.  It is modelled by
    two tables kept as lists of rows in storage order, one primary-key
    sequence per table, and the constraints that [models.py] declares:
    unique [employees.employee_id], unique [employees.email], unique
    [(attendance.employee_id, attendance.date)], and the foreign key
    [attendance.employee_id -> employees.employee_id] with cascading
    delete.  A handler is a function from the store to a new store and a
    result; a raised [HTTPException] is a result, not a crash. *)

From Stdlib Require Import List String ZArith Bool Lia Permutation Sorted.
Import ListNotations.

Local Open Scope Z_scope.

(** ** Values *)

(** A [datetime.date], as its proleptic Gregorian ordinal
    ([date.toordinal()]).  Equality and order of dates are equality and
    order of ordinals. *)
Definition date := Z.

(** Python [str]; one character stands for one code point. *)
Definition str_len (s : string) : Z := Z.of_nat (String.length s).

(** ** ORM rows ([models.py]) *)

Module Employee.
Record t := mk {
  id : Z;
  employee_id : string;
  full_name : string;
  email : string;
  department : string
}.
End Employee.

Module Attendance.
Record t := mk {
  id : Z;
  employee_id : string;
  date : date;
  is_present : bool
}.
End Attendance.

(** ** Request and response schemas ([schemas.py]) *)

(** The JSON body of [POST /api/employees] before validation; [None] is a
    field that is absent from the body. *)
Module EmployeeBody.
Record t := mk {
  employee_id : option string;
  full_name : option string;
  email : option string;
  department : option string
}.
End EmployeeBody.

Module EmployeeCreate.
Record t := mk {
  employee_id : string;
  full_name : string;
  email : string;
  department : string
}.
End EmployeeCreate.

(** The JSON body of [POST /api/attendance] before validation; [None] is
    a field that is absent or, for [date], not a calendar date. *)
Module AttendanceBody.
Record t := mk {
  employee_id : option string;
  date : option date;
  is_present : option bool
}.
End AttendanceBody.

Module AttendanceCreate.
Record t := mk {
  employee_id : string;
  date : date;
  is_present : bool
}.
End AttendanceCreate.

Module AttendanceResponse.
Record t := mk {
  id : Z;
  employee_id : string;
  date : date;
  is_present : bool
}.
End AttendanceResponse.

Module AttendanceSummary.
Record t := mk {
  employee_id : string;
  full_name : string;
  total_present_days : Z;
  total_absent_days : Z
}.
End AttendanceSummary.

(** ** Outcomes *)

Inductive Status :=
| HTTP_400_BAD_REQUEST
| HTTP_404_NOT_FOUND
| HTTP_409_CONFLICT
| HTTP_422_UNPROCESSABLE_ENTITY.

(** The [detail] of an [HTTPException]; a constructor carries the values
    that the message interpolates. *)
Inductive Detail :=
| EmployeeIdExists                       (* "Employee ID already exists" *)
| EmailExists                            (* "Email already exists" *)
| InvalidData                            (* "Invalid data provided" *)
| ErrorCreatingEmployee (e : string)     (* "Error creating employee: {e}" *)
| EmployeeNotFound (employee_id : string)
                                         (* "Employee with ID {..} not found" *)
| AttendanceExists (employee_id : string) (d : date)
                    (* "Attendance for employee {..} on date {..} already exists" *)
| AttendanceRecordExists
        (* "Attendance record already exists for this employee and date" *)
| ErrorCreatingAttendance (e : string)
                             (* "Error creating attendance record: {e}" *)
| RequestValidationError.          (* the framework's answer to a bad body *)

Inductive Result (A : Type) :=
| Ok (a : A)
| HTTPException (status_code : Status) (detail : Detail).

Arguments Ok {A} a.
Arguments HTTPException {A} status_code detail.

(** The three failure kinds of the error taxonomy. *)
Inductive ErrorKind := NotFound | Conflict | Validation.

Definition kind_of_status (s : Status) : ErrorKind :=
  match s with
  | HTTP_404_NOT_FOUND => NotFound
  | HTTP_409_CONFLICT => Conflict
  | HTTP_400_BAD_REQUEST => Validation
  | HTTP_422_UNPROCESSABLE_ENTITY => Validation
  end.

Definition failure {A} (r : Result A) : option ErrorKind :=
  match r with
  | Ok _ => None
  | HTTPException s _ => Some (kind_of_status s)
  end.

(** ** The store *)

Record Store := mkStore {
  employees : list Employee.t;
  attendance : list Attendance.t;
  employees_next_id : Z;
  attendance_next_id : Z
}.

Definition empty_store : Store := mkStore [] [] 1 1.

(** What the engine raises on a flush or commit. *)
Inductive DBError :=
| IntegrityError
| OperationalError (msg : string).

(** A failure of the engine that is not a constraint: on [db.commit()],
    which then writes nothing, or on the [db.refresh(...)] that follows
    a commit that went through. *)
Inductive EngineFault :=
| CommitFault (msg : string)
| RefreshFault (msg : string).

(** The circumstances of one request: the state its queries read (the
    store itself when requests run one after the other, an older state
    when another request commits between the reads and the insert), and
    the failure, if any, that the engine reports for a reason other
    than a constraint. *)
Record Txn := mkTxn {
  snapshot : Store;
  fault : option EngineFault
}.

Definition alone (db : Store) : Txn := mkTxn db None.

(** *** Queries *)

(** [db.query(Employee).filter(Employee.employee_id == x).first()] *)
Definition employee_by_employee_id (db : Store) (x : string)
  : option Employee.t :=
  find (fun e => String.eqb (Employee.employee_id e) x) (employees db).

(** [db.query(Employee).filter(Employee.email == x).first()] *)
Definition employee_by_email (db : Store) (x : string) : option Employee.t :=
  find (fun e => String.eqb (Employee.email e) x) (employees db).

(** [db.query(Attendance).filter(and_(Attendance.employee_id == x,
    Attendance.date == d)).first()] *)
Definition attendance_by_employee_date (db : Store) (x : string) (d : date)
  : option Attendance.t :=
  find (fun a => String.eqb (Attendance.employee_id a) x
                 && (Attendance.date a =? d))
       (attendance db).

(** Python truthiness of an optional result. *)
Definition truthy {A} (o : option A) : bool :=
  match o with Some _ => true | None => false end.

(** *** Writes, with the constraints of [models.py] *)

Definition violates_employee_unique (db : Store) (eid mail : string) : bool :=
  existsb (fun e => String.eqb (Employee.employee_id e) eid) (employees db)
  || existsb (fun e => String.eqb (Employee.email e) mail) (employees db).

(** [db.add(Employee(...)); db.commit()] *)
Definition insert_employee (fault : option EngineFault) (db : Store)
    (eid name mail dept : string) : DBError + Store * Employee.t :=
  match fault with
  | Some (CommitFault msg) => inl (OperationalError msg)
  | _ =>
      if violates_employee_unique db eid mail then inl IntegrityError
      else
        let row := Employee.mk (employees_next_id db) eid name mail dept in
        inr (mkStore (employees db ++ [row]) (attendance db)
                     (employees_next_id db + 1) (attendance_next_id db),
             row)
  end.

Definition violates_attendance_constraints (db : Store) (eid : string)
    (d : date) : bool :=
  existsb (fun a => String.eqb (Attendance.employee_id a) eid
                    && (Attendance.date a =? d)) (attendance db)
  || negb (existsb (fun e => String.eqb (Employee.employee_id e) eid)
                   (employees db)).

(** [db.add(Attendance(...)); db.commit()] *)
Definition insert_attendance (fault : option EngineFault) (db : Store)
    (eid : string) (d : date) (present : bool)
  : DBError + Store * Attendance.t :=
  match fault with
  | Some (CommitFault msg) => inl (OperationalError msg)
  | _ =>
      if violates_attendance_constraints db eid d then inl IntegrityError
      else
        let row := Attendance.mk (attendance_next_id db) eid d present in
        inr (mkStore (employees db) (attendance db ++ [row])
                     (employees_next_id db) (attendance_next_id db + 1),
             row)
  end.

(** [db.refresh(row)], after the commit: the row as the store holds it,
    unless the engine fails. *)
Definition refresh {A} (fault : option EngineFault) (row : A) : DBError + A :=
  match fault with
  | Some (RefreshFault msg) => inl (OperationalError msg)
  | _ => inr row
  end.

(** [db.delete(employee); db.commit()]: the row goes by primary key, and
    with it every attendance row that joins it on [employee_id].  The
    sequences stay as they are; which key an engine gives after a delete
    is its own policy, and no statement below depends on it. *)
Definition delete_employee_row (db : Store) (employee : Employee.t) : Store :=
  mkStore
    (filter (fun e => negb (Employee.id e =? Employee.id employee))
            (employees db))
    (filter (fun a => negb (String.eqb (Attendance.employee_id a)
                                       (Employee.employee_id employee)))
            (attendance db))
    (employees_next_id db) (attendance_next_id db).

(** [ORDER BY attendance.date DESC]: rows of one date keep storage order. *)
Fixpoint insert_by_date_desc (a : Attendance.t) (l : list Attendance.t)
  : list Attendance.t :=
  match l with
  | [] => [a]
  | b :: l' =>
      if Attendance.date b <=? Attendance.date a then a :: b :: l'
      else b :: insert_by_date_desc a l'
  end.

Definition order_by_date_desc (l : list Attendance.t) : list Attendance.t :=
  fold_right insert_by_date_desc [] l.

(** ** Handlers *)

(** *** [routers/employees.py] *)

Definition create_employee (txn : Txn) (employee : EmployeeCreate.t)
    (db : Store) : Store * Result Employee.t :=
  if truthy (employee_by_employee_id (snapshot txn)
               (EmployeeCreate.employee_id employee))
  then (db, HTTPException HTTP_409_CONFLICT EmployeeIdExists)
  else if truthy (employee_by_email (snapshot txn)
                    (EmployeeCreate.email employee))
  then (db, HTTPException HTTP_409_CONFLICT EmailExists)
  else
    match insert_employee (fault txn) db
            (EmployeeCreate.employee_id employee)
            (EmployeeCreate.full_name employee)
            (EmployeeCreate.email employee)
            (EmployeeCreate.department employee) with
    | inr (db', db_employee) =>
        (* committed: [db.rollback()] in a handler below undoes nothing *)
        match refresh (fault txn) db_employee with
        | inr db_employee => (db', Ok db_employee)
        | inl IntegrityError =>
            (db', HTTPException HTTP_400_BAD_REQUEST InvalidData)
        | inl (OperationalError e) =>
            (db', HTTPException HTTP_400_BAD_REQUEST
                    (ErrorCreatingEmployee e))
        end
    | inl IntegrityError =>
        (db, HTTPException HTTP_400_BAD_REQUEST InvalidData)
    | inl (OperationalError e) =>
        (db, HTTPException HTTP_400_BAD_REQUEST (ErrorCreatingEmployee e))
    end.

Definition list_employees (db : Store) : list Employee.t := employees db.

Definition get_employee (employee_id : string) (db : Store)
  : Result Employee.t :=
  match employee_by_employee_id db employee_id with
  | None => HTTPException HTTP_404_NOT_FOUND (EmployeeNotFound employee_id)
  | Some employee => Ok employee
  end.

Definition delete_employee (employee_id : string) (db : Store)
  : Store * Result unit :=
  match employee_by_employee_id db employee_id with
  | None =>
      (db, HTTPException HTTP_404_NOT_FOUND (EmployeeNotFound employee_id))
  | Some employee => (delete_employee_row db employee, Ok tt)
  end.

Definition to_response (r : Attendance.t) : AttendanceResponse.t :=
  AttendanceResponse.mk (Attendance.id r) (Attendance.employee_id r)
                        (Attendance.date r) (Attendance.is_present r).

(** [if x: query = query.filter(p x)] for a [date] argument: every
    [datetime.date] is truthy, so the filter applies whenever the
    argument is given. *)
Definition filter_if_date (x : option date) (p : date -> Attendance.t -> bool)
    (query : list Attendance.t) : list Attendance.t :=
  match x with
  | Some d => filter (p d) query
  | None => query
  end.

(** The same for a [str] argument: the empty string is falsy, so it
    leaves the query as it is. *)
Definition filter_if_str (x : option string)
    (p : string -> Attendance.t -> bool)
    (query : list Attendance.t) : list Attendance.t :=
  match x with
  | Some EmptyString => query
  | Some s => filter (p s) query
  | None => query
  end.

Definition get_employee_attendance (employee_id : string)
    (start_date end_date : option date) (db : Store)
  : Result (list AttendanceResponse.t) :=
  match employee_by_employee_id db employee_id with
  | None => HTTPException HTTP_404_NOT_FOUND (EmployeeNotFound employee_id)
  | Some _ =>
      let query :=
        filter (fun a => String.eqb (Attendance.employee_id a) employee_id)
               (attendance db) in
      let query :=
        filter_if_date start_date (fun d a => Attendance.date a >=? d) query in
      let query :=
        filter_if_date end_date (fun d a => Attendance.date a <=? d) query in
      let records := order_by_date_desc query in
      Ok (map to_response records)
  end.

(** [db.query(func.count(Attendance.id)).filter(p).scalar()] *)
Definition count_scalar (p : Attendance.t -> bool) (db : Store) : option Z :=
  Some (Z.of_nat (List.length (filter p (attendance db)))).

(** Python [x or 0] on an optional integer. *)
Definition or_0 (x : option Z) : Z :=
  match x with
  | None => 0
  | Some n => if n =? 0 then 0 else n
  end.

Definition get_attendance_summary (employee_id : string) (db : Store)
  : Result AttendanceSummary.t :=
  match employee_by_employee_id db employee_id with
  | None => HTTPException HTTP_404_NOT_FOUND (EmployeeNotFound employee_id)
  | Some employee =>
      let present_count :=
        or_0 (count_scalar
                (fun a => String.eqb (Attendance.employee_id a) employee_id
                          && Bool.eqb (Attendance.is_present a) true) db) in
      let absent_count :=
        or_0 (count_scalar
                (fun a => String.eqb (Attendance.employee_id a) employee_id
                          && Bool.eqb (Attendance.is_present a) false) db) in
      Ok (AttendanceSummary.mk (Employee.employee_id employee)
                               (Employee.full_name employee)
                               present_count absent_count)
  end.

(** *** [routers/attendance.py] *)

Definition mark_attendance (txn : Txn) (attendance : AttendanceCreate.t)
    (db : Store) : Store * Result AttendanceResponse.t :=
  match employee_by_employee_id (snapshot txn)
          (AttendanceCreate.employee_id attendance) with
  | None =>
      (db, HTTPException HTTP_404_NOT_FOUND
             (EmployeeNotFound (AttendanceCreate.employee_id attendance)))
  | Some _ =>
      if truthy (attendance_by_employee_date (snapshot txn)
                   (AttendanceCreate.employee_id attendance)
                   (AttendanceCreate.date attendance))
      then (db, HTTPException HTTP_409_CONFLICT
                  (AttendanceExists (AttendanceCreate.employee_id attendance)
                                    (AttendanceCreate.date attendance)))
      else
        match insert_attendance (fault txn) db
                (AttendanceCreate.employee_id attendance)
                (AttendanceCreate.date attendance)
                (AttendanceCreate.is_present attendance) with
        | inr (db', db_attendance) =>
            (* committed: [db.rollback()] below undoes nothing *)
            match refresh (fault txn) db_attendance with
            | inr db_attendance => (db', Ok (to_response db_attendance))
            | inl IntegrityError =>
                (db', HTTPException HTTP_409_CONFLICT AttendanceRecordExists)
            | inl (OperationalError e) =>
                (db', HTTPException HTTP_400_BAD_REQUEST
                        (ErrorCreatingAttendance e))
            end
        | inl IntegrityError =>
            (db, HTTPException HTTP_409_CONFLICT AttendanceRecordExists)
        | inl (OperationalError e) =>
            (db, HTTPException HTTP_400_BAD_REQUEST
                   (ErrorCreatingAttendance e))
        end
  end.

Definition list_attendance (date : option date) (employee_id : option string)
    (db : Store) : list AttendanceResponse.t :=
  let query := attendance db in
  let query :=
    filter_if_date date (fun d a => Attendance.date a =? d) query in
  let query :=
    filter_if_str employee_id
      (fun s a => String.eqb (Attendance.employee_id a) s) query in
  let records := order_by_date_desc query in
  map to_response records.

(** ** The API layer: validation and routing *)

Definition Result_map {A B} (f : A -> B) (r : Result A) : Result B :=
  match r with
  | Ok a => Ok (f a)
  | HTTPException s d => HTTPException s d
  end.

Definition length_between (lo hi : Z) (s : string) : bool :=
  (lo <=? str_len s) && (str_len s <=? hi).

Inductive Request :=
| POST_employees (body : EmployeeBody.t)
| GET_employees
| GET_employee (employee_id : string)
| DELETE_employee (employee_id : string)
| GET_employee_attendance (employee_id : string)
                          (start_date end_date : option date)
| GET_employee_attendance_summary (employee_id : string)
| POST_attendance (body : AttendanceBody.t)
| GET_attendance (date : option date) (employee_id : option string).

Inductive Body :=
| an_employee (e : Employee.t)
| some_employees (l : list Employee.t)
| no_content
| an_attendance (a : AttendanceResponse.t)
| some_attendance (l : list AttendanceResponse.t)
| a_summary (s : AttendanceSummary.t).

Section Api.

(** [EmailStr]: the address in normal form, or [None] for a string that
    is not an address.  The validator is a third-party library. *)
Variable validate_email : string -> option string.

(** [EmployeeCreate]: [employee_id] of 1 to 50 characters, [full_name]
    and [department] of 1 to 100, [email] an [EmailStr], all required. *)
Definition validate_EmployeeCreate (body : EmployeeBody.t)
  : option EmployeeCreate.t :=
  match EmployeeBody.employee_id body, EmployeeBody.full_name body,
        EmployeeBody.email body, EmployeeBody.department body with
  | Some eid, Some name, Some mail, Some dept =>
      if length_between 1 50 eid && length_between 1 100 name
         && length_between 1 100 dept
      then match validate_email mail with
           | Some mail' => Some (EmployeeCreate.mk eid name mail' dept)
           | None => None
           end
      else None
  | _, _, _, _ => None
  end.

(** [AttendanceCreate]: [employee_id] of 1 to 50 characters, [date] and
    [is_present] required. *)
Definition validate_AttendanceCreate (body : AttendanceBody.t)
  : option AttendanceCreate.t :=
  match AttendanceBody.employee_id body, AttendanceBody.date body,
        AttendanceBody.is_present body with
  | Some eid, Some d, Some present =>
      if length_between 1 50 eid
      then Some (AttendanceCreate.mk eid d present)
      else None
  | _, _, _ => None
  end.

(** [POST /api/employees]: the body is validated before the handler
    runs. *)
Definition post_employees (txn : Txn) (body : EmployeeBody.t) (db : Store)
  : Store * Result Employee.t :=
  match validate_EmployeeCreate body with
  | None =>
      (db, HTTPException HTTP_422_UNPROCESSABLE_ENTITY
             RequestValidationError)
  | Some employee => create_employee txn employee db
  end.

(** [POST /api/attendance] *)
Definition post_attendance (txn : Txn) (body : AttendanceBody.t)
    (db : Store) : Store * Result AttendanceResponse.t :=
  match validate_AttendanceCreate body with
  | None =>
      (db, HTTPException HTTP_422_UNPROCESSABLE_ENTITY
             RequestValidationError)
  | Some attendance => mark_attendance txn attendance db
  end.

(** One request against the store.  The two handlers that check and
    then insert read through [txn]; the others read the store itself. *)
Definition serve (txn : Txn) (r : Request) (db : Store)
  : Store * Result Body :=
  match r with
  | POST_employees body =>
      let (db', res) := post_employees txn body db in
      (db', Result_map an_employee res)
  | GET_employees => (db, Ok (some_employees (list_employees db)))
  | GET_employee eid => (db, Result_map an_employee (get_employee eid db))
  | DELETE_employee eid =>
      let (db', res) := delete_employee eid db in
      (db', Result_map (fun _ => no_content) res)
  | GET_employee_attendance eid s e =>
      (db, Result_map some_attendance (get_employee_attendance eid s e db))
  | GET_employee_attendance_summary eid =>
      (db, Result_map a_summary (get_attendance_summary eid db))
  | POST_attendance body =>
      let (db', res) := post_attendance txn body db in
      (db', Result_map an_attendance res)
  | GET_attendance d eid =>
      (db, Ok (some_attendance (list_attendance d eid db)))
  end.

(** The states of the store that requests can produce, whatever each
    request's reads saw and whatever the engine reported. *)
Inductive reachable : Store -> Prop :=
| reachable_empty : reachable empty_store
| reachable_serve (db : Store) (txn : Txn) (r : Request) :
    reachable db -> reachable (fst (serve txn r db)).

End Api.

(** ** Integrity of the store *)

Definition attendance_key (a : Attendance.t) : string * date :=
  (Attendance.employee_id a, Attendance.date a).

Definition has_employee (db : Store) (eid : string) : Prop :=
  In eid (map Employee.employee_id (employees db)).

(** What every write keeps: primary keys are distinct and below the
    sequence, the unique columns are distinct, every [employee_id] is
    non-empty, and every attendance row has its employee. *)
Record store_inv (db : Store) : Prop := mk_store_inv {
  inv_employee_pk : NoDup (map Employee.id (employees db));
  inv_employee_pk_lt :
    Forall (fun e => Employee.id e < employees_next_id db) (employees db);
  inv_employee_id : NoDup (map Employee.employee_id (employees db));
  inv_employee_id_nonempty :
    Forall (fun e => Employee.employee_id e <> EmptyString) (employees db);
  inv_email : NoDup (map Employee.email (employees db));
  inv_attendance_pk : NoDup (map Attendance.id (attendance db));
  inv_attendance_pk_lt :
    Forall (fun a => Attendance.id a < attendance_next_id db) (attendance db);
  inv_attendance_key : NoDup (map attendance_key (attendance db));
  inv_attendance_fk :
    Forall (fun a => has_employee db (Attendance.employee_id a))
           (attendance db)
}.

(** ** Vocabulary of the statements *)

(** The rows of one employee, and a date range with optional ends. *)
Definition records_of (eid : string) (db : Store) : list Attendance.t :=
  filter (fun a => String.eqb (Attendance.employee_id a) eid) (attendance db).

Definition in_range (start_date end_date : option date) (d : date) : bool :=
  match start_date with Some s => s <=? d | None => true end
  && match end_date with Some e => d <=? e | None => true end.

(** Latest date first, on responses and on rows. *)
Definition date_desc (a b : AttendanceResponse.t) : Prop :=
  AttendanceResponse.date b <= AttendanceResponse.date a.

Definition row_desc (a b : Attendance.t) : Prop :=
  Attendance.date b <= Attendance.date a.

Definition field_within (lo hi : Z) (x : option string) : Prop :=
  exists s, x = Some s /\ lo <= str_len s <= hi.

(** A body that the schema accepts: the four fields present, the three
    plain ones within their lengths, the address accepted by the
    validator. *)
Definition well_formed_employee (validate_email : string -> option string)
    (body : EmployeeBody.t) : Prop :=
  field_within 1 50 (EmployeeBody.employee_id body)
  /\ field_within 1 100 (EmployeeBody.full_name body)
  /\ field_within 1 100 (EmployeeBody.department body)
  /\ exists mail, EmployeeBody.email body = Some mail
                  /\ validate_email mail <> None.

(** A row passes the filters that are given: each one is an equality. *)
Definition matches_filters (d : option date) (eid : option string)
    (a : Attendance.t) : bool :=
  match d with Some x => Attendance.date a =? x | None => true end
  && match eid with
     | Some s => String.eqb (Attendance.employee_id a) s
     | None => true
     end.

(** The [employee_id] filter that the handler acts on: an empty string
    counts as no filter. *)
Definition effective_employee_id (x : option string) : option string :=
  match x with
  | Some EmptyString => None
  | _ => x
  end.

(** A response shows a row: it has the row's four fields. *)
Definition shows (r : AttendanceResponse.t) (a : Attendance.t) : Prop :=
  AttendanceResponse.id r = Attendance.id a
  /\ AttendanceResponse.employee_id r = Attendance.employee_id a
  /\ AttendanceResponse.date r = Attendance.date a
  /\ AttendanceResponse.is_present r = Attendance.is_present a.

(** The lengths that [EmployeeBase] asks of the plain fields. *)
Definition employee_in_bounds (e : Employee.t) : Prop :=
  1 <= str_len (Employee.employee_id e) <= 50
  /\ 1 <= str_len (Employee.full_name e) <= 100
  /\ 1 <= str_len (Employee.department e) <= 100.

(** The rows of both tables fit the lengths of the schema. *)
Definition rows_in_bounds (db : Store) : Prop :=
  Forall employee_in_bounds (employees db)
  /\ Forall (fun a => 1 <= str_len (Attendance.employee_id a) <= 50)
            (attendance db).

(** The answer of every handler that misses the employee. *)
Definition not_found {A} (eid : string) : Result A :=
  HTTPException HTTP_404_NOT_FOUND (EmployeeNotFound eid).

(** What a new row adds to a count. *)
Definition one_if (b : bool) : Z := if b then 1 else 0.

(** ** Sample data *)

Local Open Scope string_scope.

(** A stand-in for [EmailStr] in the examples: a string with an [@] that
    is not its first character, returned as it is. *)
Definition sample_validate_email (s : string) : option string :=
  match index 0 "@" s with
  | Some (S _) => Some s
  | _ => None
  end.

(** 2024-01-01 *)
Definition jan1 : date := 738886.

Definition alice : Employee.t :=
  Employee.mk 1 "E001" "Alice" "alice@x.com" "Eng".

Definition store_alice : Store := mkStore [alice] [] 2 1.

Definition store_alice_jan1 : Store :=
  mkStore [alice] [Attendance.mk 1 "E001" jan1 true] 2 2.

Definition body_alice : EmployeeBody.t :=
  EmployeeBody.mk (Some "E001") (Some "Alice") (Some "alice@x.com")
                  (Some "Eng").

(** 2024-01-02 *)
Definition jan2 : date := 738887.

Definition bob : Employee.t := Employee.mk 2 "E002" "Bob" "bob@x.com" "Ops".

Definition body_bob : EmployeeBody.t :=
  EmployeeBody.mk (Some "E002") (Some "Bob") (Some "bob@x.com") (Some "Ops").

(** Two employees; Alice present on the first day and absent on the
    second, Bob absent on the first. *)
Definition store_two : Store :=
  mkStore [alice; bob]
          [Attendance.mk 1 "E001" jan1 true;
           Attendance.mk 2 "E002" jan1 false;
           Attendance.mk 3 "E001" jan2 false]
          3 4.

(** Requests served one after the other. *)
Definition run (rs : list Request) (db : Store) : Store :=
  fold_left
    (fun db r => fst (serve sample_validate_email (alone db) r db)) rs db.

Local Close Scope string_scope.

(** ** Facts about lists of rows *)

Section Rows.
Context {A K : Type} (f : A -> K).

Lemma NoDup_map_snoc (l : list A) (x : A) :
  NoDup (map f l) -> ~ In (f x) (map f l) -> NoDup (map f (l ++ [x])).
Proof.
  intros Hl Hx. rewrite map_app. simpl.
  apply NoDup_rev in Hl.
  rewrite <- (rev_involutive (map f l ++ [f x])).
  apply NoDup_rev. rewrite rev_app_distr. simpl.
  constructor; [ now rewrite <- in_rev | assumption ].
Qed.

Lemma NoDup_map_filter (p : A -> bool) (l : list A) :
  NoDup (map f l) -> NoDup (map f (filter p l)).
Proof.
  induction l as [| a l IH]; simpl; intros H; [ constructor | ].
  inversion H as [| ? ? Hnotin Hrest]; subst.
  destruct (p a); simpl; auto.
  constructor; auto.
  intros Hin. apply Hnotin.
  apply in_map_iff in Hin. destruct Hin as (y & Hy & Hin).
  apply filter_In in Hin. apply in_map_iff. exists y. tauto.
Qed.

Lemma NoDup_map_In_eq (l : list A) (x y : A) :
  NoDup (map f l) -> In x l -> In y l -> f x = f y -> x = y.
Proof.
  induction l as [| a l IH]; simpl; intros H Hx Hy Hxy; [ contradiction | ].
  inversion H as [| ? ? Hnotin Hrest]; subst.
  destruct Hx as [-> | Hx], Hy as [-> | Hy]; auto.
  - exfalso. apply Hnotin. rewrite Hxy. now apply in_map.
  - exfalso. apply Hnotin. rewrite <- Hxy. now apply in_map.
Qed.
End Rows.

Lemma existsb_eqb_In {A} (f : A -> string) (k : string) (l : list A) :
  existsb (fun x => String.eqb (f x) k) l = true <-> In k (map f l).
Proof.
  rewrite existsb_exists, in_map_iff.
  split; intros (x & H1 & H2); exists x.
  - apply String.eqb_eq in H2. tauto.
  - subst k. rewrite String.eqb_refl. tauto.
Qed.

Lemma existsb_key_In (eid : string) (d : date) (l : list Attendance.t) :
  existsb (fun a => String.eqb (Attendance.employee_id a) eid
                    && (Attendance.date a =? d)) l = true
  <-> In (eid, d) (map attendance_key l).
Proof.
  rewrite existsb_exists, in_map_iff.
  split; intros (x & H1 & H2); exists x.
  - apply andb_true_iff in H2. destruct H2 as [H2 H3].
    apply String.eqb_eq in H2. apply Z.eqb_eq in H3.
    unfold attendance_key. subst. tauto.
  - unfold attendance_key in H1. inversion H1; subst.
    rewrite String.eqb_refl, Z.eqb_refl. tauto.
Qed.

Lemma truthy_find_existsb {A} (p : A -> bool) (l : list A) :
  truthy (find p l) = existsb p l.
Proof.
  induction l as [| a l IH]; simpl; [ reflexivity | ].
  destruct (p a); simpl; auto.
Qed.

Lemma employee_by_employee_id_Some db x e :
  employee_by_employee_id db x = Some e ->
  In e (employees db) /\ Employee.employee_id e = x.
Proof.
  unfold employee_by_employee_id. intros H. apply find_some in H.
  destruct H as [H1 H2]. apply String.eqb_eq in H2. tauto.
Qed.

Lemma employee_by_employee_id_None db x :
  employee_by_employee_id db x = None <-> ~ has_employee db x.
Proof.
  unfold employee_by_employee_id, has_employee.
  rewrite <- existsb_eqb_In, <- truthy_find_existsb.
  destruct (find _ _); simpl; split; intros H; congruence.
Qed.

Lemma has_employee_found db x :
  has_employee db x -> exists e, employee_by_employee_id db x = Some e.
Proof.
  intros H. destruct (employee_by_employee_id db x) as [e |] eqn:E.
  - now exists e.
  - apply employee_by_employee_id_None in E. contradiction.
Qed.

(** *** The sort *)

Lemma insert_by_date_desc_perm a l :
  Permutation (insert_by_date_desc a l) (a :: l).
Proof.
  induction l as [| b l IH]; simpl; [ reflexivity | ].
  destruct (Attendance.date b <=? Attendance.date a); [ reflexivity | ].
  rewrite IH. apply perm_swap.
Qed.

Lemma order_by_date_desc_perm l : Permutation (order_by_date_desc l) l.
Proof.
  induction l as [| a l IH]; simpl; [ reflexivity | ].
  rewrite insert_by_date_desc_perm. now constructor.
Qed.

Lemma insert_by_date_desc_sorted a l :
  Sorted row_desc l -> Sorted row_desc (insert_by_date_desc a l).
Proof.
  induction l as [| b l IH]; simpl; intros H.
  - repeat constructor.
  - destruct (Attendance.date b <=? Attendance.date a) eqn:E.
    + constructor; [ assumption | ].
      constructor. apply Z.leb_le in E. exact E.
    + apply Z.leb_gt in E.
      inversion H as [| ? ? Hs Hh]; subst.
      constructor; [ now apply IH | ].
      destruct l as [| c l]; simpl.
      * constructor. unfold row_desc. lia.
      * destruct (Attendance.date c <=? Attendance.date a).
        -- constructor. unfold row_desc. lia.
        -- inversion Hh; subst. now constructor.
Qed.

Lemma order_by_date_desc_sorted l : Sorted row_desc (order_by_date_desc l).
Proof.
  induction l as [| a l IH]; simpl; [ constructor | ].
  now apply insert_by_date_desc_sorted.
Qed.

Lemma Forall2_shows_to_response l : Forall2 shows (map to_response l) l.
Proof.
  induction l as [| a l IH]; simpl; constructor; auto.
  unfold shows. simpl. auto.
Qed.

Lemma Sorted_to_response l :
  Sorted row_desc l -> Sorted date_desc (map to_response l).
Proof.
  induction 1 as [| a l Hs IH Hh]; simpl; constructor; auto.
  destruct Hh; simpl; constructor. assumption.
Qed.

(** ** The writes keep the store's integrity *)

Lemma empty_store_inv : store_inv empty_store.
Proof. constructor; simpl; constructor. Qed.

Lemma insert_employee_inr fault db eid name mail dept db' row :
  insert_employee fault db eid name mail dept = inr (db', row) ->
  (forall msg, fault <> Some (CommitFault msg))
  /\ violates_employee_unique db eid mail = false
  /\ row = Employee.mk (employees_next_id db) eid name mail dept
  /\ db' = mkStore (employees db ++ [row]) (attendance db)
                   (employees_next_id db + 1) (attendance_next_id db).
Proof.
  unfold insert_employee.
  destruct fault as [[msg | msg] |]; try discriminate;
    (destruct (violates_employee_unique db eid mail); [ discriminate | ]);
    intros H; inversion H; subst; repeat split; discriminate.
Qed.

Lemma insert_attendance_inr fault db eid d present db' row :
  insert_attendance fault db eid d present = inr (db', row) ->
  (forall msg, fault <> Some (CommitFault msg))
  /\ violates_attendance_constraints db eid d = false
  /\ row = Attendance.mk (attendance_next_id db) eid d present
  /\ db' = mkStore (employees db) (attendance db ++ [row])
                   (employees_next_id db) (attendance_next_id db + 1).
Proof.
  unfold insert_attendance.
  destruct fault as [[msg | msg] |]; try discriminate;
    (destruct (violates_attendance_constraints db eid d);
     [ discriminate | ]);
    intros H; inversion H; subst; repeat split; discriminate.
Qed.

Lemma Forall_lt_fresh {A} (f : A -> Z) (n : Z) (l : list A) :
  Forall (fun x => f x < n) l -> ~ In n (map f l).
Proof.
  intros H Hin. apply in_map_iff in Hin. destruct Hin as (x & Hx & Hin).
  rewrite Forall_forall in H. specialize (H x Hin). lia.
Qed.

Lemma Forall_lt_succ {A} (f : A -> Z) (n : Z) (l : list A) :
  Forall (fun x => f x < n) l -> Forall (fun x => f x < n + 1) l.
Proof. apply Forall_impl. intros; lia. Qed.

Lemma insert_employee_inv fault db eid name mail dept db' row :
  store_inv db -> eid <> EmptyString ->
  insert_employee fault db eid name mail dept = inr (db', row) ->
  store_inv db'.
Proof.
  intros [Hpk Hpklt Heid Hnonempty Hemail Hapk Hapklt Hkey Hfk] Hne H.
  apply insert_employee_inr in H.
  destruct H as (_ & Hv & -> & ->).
  apply orb_false_iff in Hv. destruct Hv as [Hid Hmail].
  constructor; simpl.
  - apply NoDup_map_snoc; auto. simpl. now apply Forall_lt_fresh.
  - apply Forall_app. split; [ now apply Forall_lt_succ | ].
    repeat constructor. simpl. lia.
  - apply NoDup_map_snoc; auto. simpl.
    rewrite <- existsb_eqb_In. congruence.
  - apply Forall_app. split; auto.
  - apply NoDup_map_snoc; auto. simpl.
    rewrite <- existsb_eqb_In. congruence.
  - assumption.
  - assumption.
  - assumption.
  - eapply Forall_impl; [ | eassumption ].
    unfold has_employee. simpl. intros a Ha.
    rewrite map_app. apply in_or_app. now left.
Qed.

Lemma insert_attendance_inv fault db eid d present db' row :
  store_inv db ->
  insert_attendance fault db eid d present = inr (db', row) ->
  store_inv db'.
Proof.
  intros [Hpk Hpklt Heid Hnonempty Hemail Hapk Hapklt Hkey' Hfk'] H.
  apply insert_attendance_inr in H.
  destruct H as (_ & Hv & -> & ->).
  apply orb_false_iff in Hv. destruct Hv as [Hkey Hfk].
  apply negb_false_iff in Hfk.
  constructor; simpl; try assumption.
  - apply NoDup_map_snoc; auto. simpl. now apply Forall_lt_fresh.
  - apply Forall_app. split; [ now apply Forall_lt_succ | ].
    repeat constructor. simpl. lia.
  - apply NoDup_map_snoc; auto. unfold attendance_key at 1. simpl.
    rewrite <- existsb_key_In. congruence.
  - apply Forall_app. split; [ assumption | ].
    repeat constructor. simpl. unfold has_employee. simpl.
    now apply existsb_eqb_In.
Qed.

Lemma Forall_filter_keep {A} (P : A -> Prop) (p : A -> bool) (l : list A) :
  Forall P l -> Forall P (filter p l).
Proof.
  rewrite !Forall_forall. intros H x Hx. apply filter_In in Hx. now apply H.
Qed.

Lemma delete_employee_row_inv db employee :
  store_inv db -> In employee (employees db) ->
  store_inv (delete_employee_row db employee).
Proof.
  intros [Hpk Hpklt Heid Hne Hmail Hapk Hapklt Hkey Hfk] Hin.
  constructor; simpl;
    try (now apply NoDup_map_filter); try (now apply Forall_filter_keep).
  rewrite Forall_forall in *. intros a Ha.
  apply filter_In in Ha. destruct Ha as [Ha Hneq].
  apply negb_true_iff, String.eqb_neq in Hneq.
  specialize (Hfk a Ha).
  unfold has_employee in *. simpl.
  apply in_map_iff in Hfk. destruct Hfk as (e & He & Hine).
  apply in_map_iff. exists e. split; [ assumption | ].
  apply filter_In. split; [ assumption | ].
  apply negb_true_iff, Z.eqb_neq. intros Hid.
  assert (e = employee)
    by (eapply NoDup_map_In_eq with (f := Employee.id); eauto).
  subst e. congruence.
Qed.

(** ** What the handlers do to the store *)

Lemma length_between_nonempty hi s :
  length_between 1 hi s = true -> s <> EmptyString.
Proof.
  unfold length_between, str_len. intros H ->. simpl in H. discriminate.
Qed.

Lemma refresh_inr {A} fault (row row' : A) :
  refresh fault row = inr row' -> row' = row.
Proof.
  unfold refresh. destruct fault as [[msg | msg] |]; congruence.
Qed.

Lemma refresh_inl {A} fault (row : A) e :
  refresh fault row = inl e ->
  exists msg, fault = Some (RefreshFault msg) /\ e = OperationalError msg.
Proof.
  unfold refresh. destruct fault as [[msg | msg] |]; try discriminate.
  intros H. injection H as <-. eauto.
Qed.

Lemma create_employee_Ok txn employee db db' row :
  create_employee txn employee db = (db', Ok row) ->
  insert_employee (fault txn) db
    (EmployeeCreate.employee_id employee) (EmployeeCreate.full_name employee)
    (EmployeeCreate.email employee) (EmployeeCreate.department employee)
  = inr (db', row).
Proof.
  unfold create_employee.
  destruct (truthy (employee_by_employee_id _ _)); [ discriminate | ].
  destruct (truthy (employee_by_email _ _)); [ discriminate | ].
  destruct (insert_employee _ _ _ _ _ _) as [[| e] | [db1 row1]];
    try discriminate.
  destruct (refresh (fault txn) row1) as [[| e] | row2] eqn:R;
    try discriminate.
  apply refresh_inr in R. intros H. inversion H; subst. reflexivity.
Qed.

(** The store after [create_employee] is the store before, or the store
    after the insert. *)
Lemma create_employee_store txn employee db :
  fst (create_employee txn employee db) = db
  \/ exists row,
       insert_employee (fault txn) db
         (EmployeeCreate.employee_id employee)
         (EmployeeCreate.full_name employee)
         (EmployeeCreate.email employee)
         (EmployeeCreate.department employee)
       = inr (fst (create_employee txn employee db), row).
Proof.
  unfold create_employee.
  destruct (truthy (employee_by_employee_id _ _)); [ now left | ].
  destruct (truthy (employee_by_email _ _)); [ now left | ].
  destruct (insert_employee _ _ _ _ _ _) as [[| e] | [db1 row1]];
    try (now left).
  right. exists row1.
  destruct (refresh (fault txn) row1) as [[| e] | row2]; reflexivity.
Qed.

Lemma create_employee_failure txn employee db :
  failure (snd (create_employee txn employee db)) <> None ->
  (forall msg, fault txn <> Some (RefreshFault msg)) ->
  fst (create_employee txn employee db) = db.
Proof.
  unfold create_employee.
  destruct (truthy (employee_by_employee_id _ _)); [ reflexivity | ].
  destruct (truthy (employee_by_email _ _)); [ reflexivity | ].
  destruct (insert_employee _ _ _ _ _ _) as [[| e] | [db1 row1]];
    try reflexivity.
  destruct (refresh (fault txn) row1) as [e | row2] eqn:R.
  - apply refresh_inl in R. destruct R as (msg & R & _).
    intros _ H. now apply H in R.
  - simpl. congruence.
Qed.

Lemma mark_attendance_Ok txn att db db' r :
  mark_attendance txn att db = (db', Ok r) ->
  exists row,
    insert_attendance (fault txn) db
      (AttendanceCreate.employee_id att) (AttendanceCreate.date att)
      (AttendanceCreate.is_present att) = inr (db', row)
    /\ r = to_response row.
Proof.
  unfold mark_attendance.
  destruct (employee_by_employee_id _ _); [ | discriminate ].
  destruct (truthy (attendance_by_employee_date _ _ _)); [ discriminate | ].
  destruct (insert_attendance _ _ _ _ _) as [[| e] | [db1 row1]];
    try discriminate.
  destruct (refresh (fault txn) row1) as [[| e] | row2] eqn:R;
    try discriminate.
  apply refresh_inr in R. intros H. inversion H; subst. now exists row1.
Qed.

(** The store after [mark_attendance] is the store before, or the store
    after the insert. *)
Lemma mark_attendance_store txn att db :
  fst (mark_attendance txn att db) = db
  \/ exists row,
       insert_attendance (fault txn) db
         (AttendanceCreate.employee_id att) (AttendanceCreate.date att)
         (AttendanceCreate.is_present att)
       = inr (fst (mark_attendance txn att db), row).
Proof.
  unfold mark_attendance.
  destruct (employee_by_employee_id _ _); [ | now left ].
  destruct (truthy (attendance_by_employee_date _ _ _)); [ now left | ].
  destruct (insert_attendance _ _ _ _ _) as [[| e] | [db1 row1]];
    try (now left).
  right. exists row1.
  destruct (refresh (fault txn) row1) as [[| e] | row2]; reflexivity.
Qed.

Lemma mark_attendance_failure txn att db :
  failure (snd (mark_attendance txn att db)) <> None ->
  (forall msg, fault txn <> Some (RefreshFault msg)) ->
  fst (mark_attendance txn att db) = db.
Proof.
  unfold mark_attendance.
  destruct (employee_by_employee_id _ _); [ | reflexivity ].
  destruct (truthy (attendance_by_employee_date _ _ _)); [ reflexivity | ].
  destruct (insert_attendance _ _ _ _ _) as [[| e] | [db1 row1]];
    try reflexivity.
  destruct (refresh (fault txn) row1) as [e | row2] eqn:R.
  - apply refresh_inl in R. destruct R as (msg & R & _).
    intros _ H. now apply H in R.
  - simpl. congruence.
Qed.





Lemma create_employee_inv txn employee db :
  store_inv db -> EmployeeCreate.employee_id employee <> EmptyString ->
  store_inv (fst (create_employee txn employee db)).
Proof.
  intros Hinv Hne.
  destruct (create_employee_store txn employee db) as [-> | (row & E)].
  - assumption.
  - eapply insert_employee_inv; eauto.
Qed.

Lemma mark_attendance_inv txn att db :
  store_inv db -> store_inv (fst (mark_attendance txn att db)).
Proof.
  intros Hinv.
  destruct (mark_attendance_store txn att db) as [-> | (row & E)].
  - assumption.
  - eapply insert_attendance_inv; eauto.
Qed.

Lemma delete_employee_inv eid db :
  store_inv db -> store_inv (fst (delete_employee eid db)).
Proof.
  intros Hinv. unfold delete_employee.
  destruct (employee_by_employee_id db eid) as [e |] eqn:E; simpl; auto.
  apply employee_by_employee_id_Some in E.
  now apply delete_employee_row_inv.
Qed.

Section ApiFacts.
Variable validate_email : string -> option string.

Lemma validate_EmployeeCreate_Some body employee :
  validate_EmployeeCreate validate_email body = Some employee ->
  exists mail,
    EmployeeBody.employee_id body
      = Some (EmployeeCreate.employee_id employee)
    /\ EmployeeBody.full_name body
      = Some (EmployeeCreate.full_name employee)
    /\ EmployeeBody.department body
      = Some (EmployeeCreate.department employee)
    /\ EmployeeBody.email body = Some mail
    /\ validate_email mail = Some (EmployeeCreate.email employee)
    /\ length_between 1 50 (EmployeeCreate.employee_id employee) = true
    /\ length_between 1 100 (EmployeeCreate.full_name employee) = true
    /\ length_between 1 100 (EmployeeCreate.department employee) = true.
Proof.
  unfold validate_EmployeeCreate.
  destruct body as [[eid |] [name |] [mail |] [dept |]]; simpl;
    try discriminate.
  destruct (length_between 1 50 eid) eqn:E1; simpl; [ | discriminate ].
  destruct (length_between 1 100 name) eqn:E2; simpl; [ | discriminate ].
  destruct (length_between 1 100 dept) eqn:E3; simpl; [ | discriminate ].
  destruct (validate_email mail) as [mail' |] eqn:E4; [ | discriminate ].
  intros H. inversion H; subst; simpl. exists mail. auto 10.
Qed.

Lemma serve_inv txn r db :
  store_inv db -> store_inv (fst (serve validate_email txn r db)).
Proof.
  intros Hinv. destruct r; simpl; try assumption.
  - unfold post_employees.
    destruct (validate_EmployeeCreate validate_email body) as [e |] eqn:E;
      simpl; [ | assumption ].
    apply validate_EmployeeCreate_Some in E.
    destruct E as (mail & _ & _ & _ & _ & _ & Hlen & _).
    apply length_between_nonempty in Hlen.
    pose proof (create_employee_inv txn e db Hinv Hlen) as H.
    destruct (create_employee txn e db). exact H.
  - pose proof (delete_employee_inv employee_id db Hinv) as H.
    destruct (delete_employee employee_id db). exact H.
  - unfold post_attendance.
    destruct (validate_AttendanceCreate body) as [a |]; simpl;
      [ | assumption ].
    pose proof (mark_attendance_inv txn a db Hinv) as H.
    destruct (mark_attendance txn a db). exact H.
Qed.

Lemma reachable_inv db : reachable validate_email db -> store_inv db.
Proof.
  induction 1 as [| db txn r _ IH].
  - apply empty_store_inv.
  - now apply serve_inv.
Qed.

(** C5: in every state of the store that a sequence of requests can
    produce, no two employees share an [employee_id] or an [email], no
    two attendance rows share an [(employee_id, date)] pair, and the
    [employee_id] of every attendance row is that of an employee in the
    store. *)
Theorem reachable_store_integrity db :
  reachable validate_email db ->
  NoDup (map Employee.employee_id (employees db))
  /\ NoDup (map Employee.email (employees db))
  /\ NoDup (map attendance_key (attendance db))
  /\ Forall (fun a => exists e, In e (employees db)
               /\ Employee.employee_id e = Attendance.employee_id a)
            (attendance db).
Proof.
  intros H. apply reachable_inv in H.
  destruct H as [_ _ Heid _ Hmail _ _ Hkey Hfk].
  repeat split; try assumption.
  eapply Forall_impl; [ | exact Hfk ].
  unfold has_employee. intros a Ha.
  apply in_map_iff in Ha. destruct Ha as (e & He & Hin). eauto.
Qed.


End ApiFacts.

(** ** Marking attendance *)

(** C10: a successful [mark_attendance] appends one row to the attendance
    table and touches nothing else; the row and the response carry the
    [employee_id], [date] and [is_present] of the request. *)
Theorem mark_attendance_success_frame txn att db db' r :
  mark_attendance txn att db = (db', Ok r) ->
  attendance db'
  = attendance db
    ++ [Attendance.mk (AttendanceResponse.id r)
          (AttendanceCreate.employee_id att) (AttendanceCreate.date att)
          (AttendanceCreate.is_present att)]
  /\ List.length (attendance db') = S (List.length (attendance db))
  /\ employees db' = employees db
  /\ AttendanceResponse.employee_id r = AttendanceCreate.employee_id att
  /\ AttendanceResponse.date r = AttendanceCreate.date att
  /\ AttendanceResponse.is_present r = AttendanceCreate.is_present att.
Proof.
  intros H. apply mark_attendance_Ok in H. destruct H as (row & H & ->).
  apply insert_attendance_inr in H. destruct H as (_ & _ & -> & ->).
  simpl. rewrite length_app. simpl. repeat split. lia.
Qed.

Lemma store_inv_key_has_employee db eid d :
  store_inv db -> In (eid, d) (map attendance_key (attendance db)) ->
  has_employee db eid.
Proof.
  intros Hinv Hin. apply in_map_iff in Hin. destruct Hin as (a & Ha & Hin).
  pose proof (inv_attendance_fk db Hinv) as Hfk.
  rewrite Forall_forall in Hfk. specialize (Hfk a Hin).
  unfold attendance_key in Ha. inversion Ha; subst. exact Hfk.
Qed.

Lemma attendance_by_employee_date_truthy db eid d :
  truthy (attendance_by_employee_date db eid d) = true
  <-> In (eid, d) (map attendance_key (attendance db)).
Proof.
  unfold attendance_by_employee_date.
  rewrite truthy_find_existsb. apply existsb_key_In.
Qed.

(** C1: a [mark_attendance] request for an [(employee_id, date)] pair
    that already has a row fails with 409, whatever its [is_present]:
    when the handler's own query sees the row, among the rows of a store
    that keeps its integrity; and when the query does not see it, the
    employee is seen, and the insert meets the row in the store. *)
Theorem mark_attendance_duplicate_conflict txn db eid d present :
  (store_inv (snapshot txn)
   /\ In (eid, d) (map attendance_key (attendance (snapshot txn))))
  \/ (has_employee (snapshot txn) eid
      /\ ~ In (eid, d) (map attendance_key (attendance (snapshot txn)))
      /\ fault txn = None
      /\ In (eid, d) (map attendance_key (attendance db))) ->
  exists detail,
    mark_attendance txn (AttendanceCreate.mk eid d present) db
    = (db, HTTPException HTTP_409_CONFLICT detail)
    /\ failure (snd (mark_attendance txn (AttendanceCreate.mk eid d present)
                       db)) = Some Conflict.
Proof.
  intros [[Hinv Hin] | (Hemp & Hnot & Hfault & Hin)].
  - pose proof (store_inv_key_has_employee _ _ _ Hinv Hin) as Hemp.
    apply has_employee_found in Hemp. destruct Hemp as [e He].
    apply attendance_by_employee_date_truthy in Hin.
    exists (AttendanceExists eid d).
    unfold mark_attendance. simpl. rewrite He, Hin. split; reflexivity.
  - apply has_employee_found in Hemp. destruct Hemp as [e He].
    rewrite <- attendance_by_employee_date_truthy in Hnot.
    apply not_true_is_false in Hnot.
    exists AttendanceRecordExists.
    unfold mark_attendance, insert_attendance,
      violates_attendance_constraints.
    simpl. rewrite He, Hnot, Hfault.
    apply existsb_key_In in Hin. rewrite Hin. simpl. split; reflexivity.
Qed.

(** When requests run one after the other, the insert of
    [mark_attendance] never meets a constraint: the two queries have
    already ruled it out. *)
Lemma mark_attendance_alone_no_IntegrityError att db :
  snd (mark_attendance (alone db) att db)
  <> HTTPException HTTP_409_CONFLICT AttendanceRecordExists.
Proof.
  unfold mark_attendance, alone. simpl.
  destruct (employee_by_employee_id db _) as [e |] eqn:He;
    [ | simpl; congruence ].
  destruct (truthy (attendance_by_employee_date db _ _)) eqn:Hd;
    [ simpl; congruence | ].
  unfold insert_attendance, violates_attendance_constraints.
  unfold attendance_by_employee_date in Hd.
  rewrite truthy_find_existsb in Hd. rewrite Hd.
  assert (Hex : existsb
            (fun e0 => String.eqb (Employee.employee_id e0)
                         (AttendanceCreate.employee_id att))
            (employees db) = true).
  { rewrite <- truthy_find_existsb.
    unfold employee_by_employee_id in He. now rewrite He. }
  rewrite Hex. simpl. congruence.
Qed.

(** ** Creating an employee *)

Lemma create_employee_backstop txn employee db :
  ~ has_employee (snapshot txn) (EmployeeCreate.employee_id employee) ->
  ~ In (EmployeeCreate.email employee)
       (map Employee.email (employees (snapshot txn))) ->
  fault txn = None ->
  violates_employee_unique db (EmployeeCreate.employee_id employee)
    (EmployeeCreate.email employee) = true ->
  create_employee txn employee db
  = (db, HTTPException HTTP_400_BAD_REQUEST InvalidData).
Proof.
  intros Hid Hmail Hfault Hv.
  apply employee_by_employee_id_None in Hid.
  rewrite <- existsb_eqb_In in Hmail. apply not_true_is_false in Hmail.
  unfold create_employee, insert_employee, employee_by_email.
  rewrite truthy_find_existsb, Hid, Hmail, Hfault, Hv. reflexivity.
Qed.

Local Open Scope string_scope.

(** C2, on the code: a create request for [E001] whose queries ran before
    another request committed [E001] gets past both checks, and the
    insert raises [IntegrityError].  The handler answers 400 with
    "Invalid data provided", which is a Validation failure, where the
    check on the same data answers 409. *)
Theorem create_employee_IntegrityError_is_400 :
  let employee := EmployeeCreate.mk "E001" "Alice B" "alice.b@x.com" "Ops" in
  insert_employee None store_alice "E001" "Alice B" "alice.b@x.com" "Ops"
  = inl IntegrityError
  /\ create_employee (mkTxn empty_store None) employee store_alice
     = (store_alice, HTTPException HTTP_400_BAD_REQUEST InvalidData)
  /\ failure (snd (create_employee (mkTxn empty_store None) employee
                     store_alice)) = Some Validation
  /\ create_employee (alone store_alice) employee store_alice
     = (store_alice, HTTPException HTTP_409_CONFLICT EmployeeIdExists).
Proof. repeat split. Qed.

Local Close Scope string_scope.

Lemma length_between_spec lo hi s :
  length_between lo hi s = true <-> lo <= str_len s <= hi.
Proof.
  unfold length_between. rewrite andb_true_iff, !Z.leb_le. tauto.
Qed.

Lemma validate_EmployeeCreate_well_formed validate_email body employee :
  validate_EmployeeCreate validate_email body = Some employee ->
  well_formed_employee validate_email body.
Proof.
  intros H. apply validate_EmployeeCreate_Some in H.
  destruct H as (mail & H1 & H2 & H3 & H4 & H5 & L1 & L2 & L3).
  apply length_between_spec in L1, L2, L3.
  unfold well_formed_employee, field_within.
  repeat split; eauto. exists mail. split; congruence.
Qed.

Lemma well_formed_validate_EmployeeCreate validate_email
    eid name mail mail' dept :
  well_formed_employee validate_email
    (EmployeeBody.mk (Some eid) (Some name) (Some mail) (Some dept)) ->
  validate_email mail = Some mail' ->
  validate_EmployeeCreate validate_email
    (EmployeeBody.mk (Some eid) (Some name) (Some mail) (Some dept))
  = Some (EmployeeCreate.mk eid name mail' dept).
Proof.
  intros ((s1 & E1 & L1) & (s2 & E2 & L2) & (s3 & E3 & L3) & _) Hmail.
  simpl in *. inversion E1; inversion E2; inversion E3; subst.
  apply length_between_spec in L1, L2, L3.
  unfold validate_EmployeeCreate. simpl. now rewrite L1, L2, L3, Hmail.
Qed.

Local Open Scope string_scope.

(** C3 as it is written does not hold: a body with the [employee_id] of
    an employee in the store and an empty [full_name] is answered 422,
    a Validation failure, not Conflict. *)
Lemma create_existing_id_malformed_is_validation :
  ~ (has_employee store_alice "E001" ->
     failure (snd (post_employees sample_validate_email (alone store_alice)
                     (EmployeeBody.mk (Some "E001") (Some "")
                        (Some "alice@x.com") (Some "Eng"))
                     store_alice))
     = Some Conflict).
Proof.
  intros H.
  assert (Hin : has_employee store_alice "E001") by (now left).
  specialize (H Hin). vm_compute in H. discriminate.
Qed.

Local Close Scope string_scope.

(** C3, amended: the body is validated first.  A body with a field that
    is absent, empty, too long or not an address fails with Validation.
    A well-formed one fails with Conflict when its [employee_id] is
    taken, and with Conflict when its (validated) [email] is taken;
    otherwise one row is appended to the employees, with the next
    primary key, which no other row has, and is returned. *)
Theorem post_employees_outcome validate_email body db :
  store_inv db ->
  (~ well_formed_employee validate_email body ->
   post_employees validate_email (alone db) body db
   = (db, HTTPException HTTP_422_UNPROCESSABLE_ENTITY RequestValidationError)
   /\ kind_of_status HTTP_422_UNPROCESSABLE_ENTITY = Validation)
  /\ (forall eid name mail mail' dept,
         body = EmployeeBody.mk (Some eid) (Some name) (Some mail)
                                (Some dept) ->
         well_formed_employee validate_email body ->
         validate_email mail = Some mail' ->
         (has_employee db eid ->
          post_employees validate_email (alone db) body db
          = (db, HTTPException HTTP_409_CONFLICT EmployeeIdExists))
         /\ (~ has_employee db eid ->
             In mail' (map Employee.email (employees db)) ->
             post_employees validate_email (alone db) body db
             = (db, HTTPException HTTP_409_CONFLICT EmailExists))
         /\ (~ has_employee db eid ->
             ~ In mail' (map Employee.email (employees db)) ->
             let row :=
               Employee.mk (employees_next_id db) eid name mail' dept in
             post_employees validate_email (alone db) body db
             = (mkStore (employees db ++ [row]) (attendance db)
                        (employees_next_id db + 1) (attendance_next_id db),
                Ok row)
             /\ ~ In (Employee.id row) (map Employee.id (employees db)))).
Proof.
  intros Hinv. split.
  - intros Hbad. unfold post_employees.
    destruct (validate_EmployeeCreate validate_email body) as [e |] eqn:E.
    + apply validate_EmployeeCreate_well_formed in E. contradiction.
    + split; reflexivity.
  - intros eid name mail mail' dept -> Hwf Hmail.
    pose proof (well_formed_validate_EmployeeCreate _ _ _ _ _ _ Hwf Hmail)
      as Hv.
    unfold post_employees. rewrite Hv.
    unfold create_employee, alone. simpl.
    unfold employee_by_email, insert_employee, violates_employee_unique.
    simpl. rewrite !truthy_find_existsb.
    split; [ | split ].
    + intros Hhas. apply has_employee_found in Hhas.
      destruct Hhas as [e He]. now rewrite He.
    + intros Hno Hin. apply employee_by_employee_id_None in Hno.
      rewrite Hno. simpl.
      apply existsb_eqb_In in Hin. now rewrite Hin.
    + intros Hno Hnin.
      pose proof Hno as Hno'. apply employee_by_employee_id_None in Hno'.
      rewrite Hno'. simpl. unfold has_employee in Hno.
      rewrite <- existsb_eqb_In in Hnin, Hno.
      apply not_true_is_false in Hnin. apply not_true_is_false in Hno.
      rewrite Hnin, Hno. simpl. split; [ reflexivity | ].
      apply Forall_lt_fresh. now apply inv_employee_pk_lt.
Qed.

(** ** Deleting an employee *)

Lemma filter_none {A} (p : A -> bool) (l : list A) :
  (forall a, In a l -> p a = false) -> filter p l = [].
Proof.
  induction l as [| a l IH]; simpl; intros H; [ reflexivity | ].
  rewrite (H a) by now left. apply IH. intros; apply H. now right.
Qed.

Lemma filter_if_date_In x p q a : In a (filter_if_date x p q) -> In a q.
Proof.
  destruct x; simpl; [ | auto ]. intros H. now apply filter_In in H.
Qed.

Lemma order_by_date_desc_nil l : l = [] -> order_by_date_desc l = [].
Proof. now intros ->. Qed.

(** C4: deleting an [employee_id] that no employee has fails with 404 and
    leaves the store as it was.  Otherwise one step removes the
    employee's row and every attendance row with that [employee_id], and
    nothing else; afterwards the attendance list filtered by that
    [employee_id], with or without a date, is empty. *)
Theorem delete_employee_outcome eid db :
  store_inv db ->
  (~ has_employee db eid ->
   delete_employee eid db
   = (db, HTTPException HTTP_404_NOT_FOUND (EmployeeNotFound eid)))
  /\ (has_employee db eid ->
      exists db',
        delete_employee eid db = (db', Ok tt)
        /\ employees db'
           = filter (fun e => negb (String.eqb (Employee.employee_id e) eid))
                    (employees db)
        /\ attendance db'
           = filter (fun a => negb (String.eqb (Attendance.employee_id a) eid))
                    (attendance db)
        /\ ~ has_employee db' eid
        /\ records_of eid db' = []
        /\ forall d, list_attendance d (Some eid) db' = []).
Proof.
  intros Hinv. split.
  - intros H. apply employee_by_employee_id_None in H.
    unfold delete_employee. now rewrite H.
  - intros H. apply has_employee_found in H. destruct H as [e He].
    unfold delete_employee. rewrite He.
    apply employee_by_employee_id_Some in He. destruct He as [Hin Heid].
    exists (delete_employee_row db e).
    assert (Hemp : employees (delete_employee_row db e)
                   = filter (fun x => negb (String.eqb
                                              (Employee.employee_id x) eid))
                            (employees db)).
    { simpl. apply filter_ext_in. intros x Hx. f_equal.
      destruct (Z.eqb_spec (Employee.id x) (Employee.id e)) as [E | E].
      - assert (x = e)
          by (eapply NoDup_map_In_eq with (f := Employee.id);
              eauto using inv_employee_pk).
        subst x. rewrite Heid. symmetry. apply String.eqb_refl.
      - symmetry. apply String.eqb_neq. intros E'. apply E.
        assert (x = e)
          by (eapply NoDup_map_In_eq with (f := Employee.employee_id);
              eauto using inv_employee_id; congruence).
        now subst x. }
    assert (Hatt : attendance (delete_employee_row db e)
                   = filter (fun a => negb (String.eqb
                                              (Attendance.employee_id a) eid))
                            (attendance db)).
    { simpl. now rewrite Heid. }
    assert (Hnone : forall a, In a (attendance (delete_employee_row db e)) ->
                              String.eqb (Attendance.employee_id a) eid
                              = false).
    { intros a Ha. rewrite Hatt in Ha. apply filter_In in Ha.
      now apply negb_true_iff. }
    assert (Hne : eid <> EmptyString).
    { pose proof (inv_employee_id_nonempty db Hinv) as Hf.
      rewrite Forall_forall in Hf. specialize (Hf e Hin). congruence. }
    repeat split; try assumption.
    + unfold has_employee. rewrite Hemp. intros Hx.
      apply in_map_iff in Hx. destruct Hx as (x & Hx & Hxin).
      apply filter_In in Hxin. destruct Hxin as [_ Hxin].
      rewrite Hx, String.eqb_refl in Hxin. discriminate.
    + unfold records_of. now apply filter_none.
    + intros d. unfold list_attendance.
      rewrite order_by_date_desc_nil; [ reflexivity | ].
      destruct eid as [| c eid]; [ congruence | ]. simpl.
      apply filter_none. intros a Ha. apply filter_if_date_In in Ha. auto.
Qed.

(** ** The attendance of one employee *)

Lemma filter_andb {A} (p q : A -> bool) (l : list A) :
  filter (fun a => p a && q a) l = filter q (filter p l).
Proof.
  induction l as [| a l IH]; simpl; [ reflexivity | ].
  destruct (p a); simpl; [ | assumption ].
  destruct (q a); simpl; now rewrite IH.
Qed.

Lemma length_filter_split {A} (p : A -> bool) (l : list A) :
  Z.of_nat (List.length (filter p l))
  + Z.of_nat (List.length (filter (fun a => negb (p a)) l))
  = Z.of_nat (List.length l).
Proof.
  induction l as [| a l IH]; simpl; [ reflexivity | ].
  destruct (p a); simpl List.length; lia.
Qed.

Lemma or_0_Some n : or_0 (Some n) = n.
Proof. simpl. destruct (Z.eqb_spec n 0); congruence. Qed.

(** C6: the summary of an [employee_id] that no employee has fails with
    404.  Otherwise it carries the number P of the employee's rows with
    [is_present] true and the number A of those with [is_present] false;
    P + A is the number of the employee's rows, and both are 0 for an
    employee without rows. *)
Theorem get_attendance_summary_counts eid db :
  (~ has_employee db eid ->
   get_attendance_summary eid db
   = HTTPException HTTP_404_NOT_FOUND (EmployeeNotFound eid))
  /\ (has_employee db eid ->
      let P := Z.of_nat (List.length
                 (filter Attendance.is_present (records_of eid db))) in
      let A := Z.of_nat (List.length
                 (filter (fun a => negb (Attendance.is_present a))
                         (records_of eid db))) in
      (exists e,
          In e (employees db) /\ Employee.employee_id e = eid
          /\ get_attendance_summary eid db
             = Ok (AttendanceSummary.mk eid (Employee.full_name e) P A))
      /\ P + A = Z.of_nat (List.length (records_of eid db))
      /\ (records_of eid db = [] -> P = 0 /\ A = 0)).
Proof.
  split.
  - intros H. apply employee_by_employee_id_None in H.
    unfold get_attendance_summary. now rewrite H.
  - intros H. apply has_employee_found in H. destruct H as [e He].
    intros P A. split; [ | split ].
    + exists e. unfold get_attendance_summary. rewrite He.
      apply employee_by_employee_id_Some in He. destruct He as [Hin Heid].
      repeat split; try assumption.
      unfold count_scalar. rewrite !or_0_Some, !filter_andb, Heid.
      fold (records_of eid db). subst P A.
      rewrite (filter_ext (fun a => Bool.eqb (Attendance.is_present a) true)
                          Attendance.is_present)
        by (intros a; now destruct (Attendance.is_present a)).
      rewrite (filter_ext (fun a => Bool.eqb (Attendance.is_present a) false)
                          (fun a => negb (Attendance.is_present a)))
        by (intros a; now destruct (Attendance.is_present a)).
      reflexivity.
    + apply length_filter_split.
    + subst P A. intros ->. split; reflexivity.
Qed.

Lemma filter_true {A} (l : list A) : filter (fun _ => true) l = l.
Proof.
  induction l as [| a l IH]; simpl; [ reflexivity | now rewrite IH ].
Qed.

Lemma filter_if_date_range start_date end_date l :
  filter_if_date end_date (fun d a => Attendance.date a <=? d)
    (filter_if_date start_date (fun d a => Attendance.date a >=? d) l)
  = filter (fun a => in_range start_date end_date (Attendance.date a)) l.
Proof.
  unfold in_range.
  rewrite (filter_andb
             (fun a => match start_date with
                       | Some s => s <=? Attendance.date a
                       | None => true
                       end)
             (fun a => match end_date with
                       | Some e => Attendance.date a <=? e
                       | None => true
                       end)).
  assert (Hs : filter_if_date start_date
                 (fun d a => Attendance.date a >=? d) l
               = filter (fun a => match start_date with
                                  | Some s => s <=? Attendance.date a
                                  | None => true
                                  end) l).
  { destruct start_date as [s |]; simpl.
    - apply filter_ext. intros a. apply Z.geb_leb.
    - now rewrite filter_true. }
  rewrite Hs. destruct end_date as [e |]; simpl.
  - reflexivity.
  - now rewrite filter_true.
Qed.

(** C7: the attendance of an [employee_id] that no employee has fails
    with 404.  Otherwise the answer shows, field by field and one
    response per row, exactly the employee's rows whose date is not
    before [start_date], when that is given, and not after [end_date],
    when that is given, latest date first. *)
Theorem get_employee_attendance_outcome eid start_date end_date db :
  (~ has_employee db eid ->
   get_employee_attendance eid start_date end_date db
   = HTTPException HTTP_404_NOT_FOUND (EmployeeNotFound eid))
  /\ (has_employee db eid ->
      exists l rows,
        get_employee_attendance eid start_date end_date db = Ok l
        /\ Forall2 shows l rows
        /\ Permutation rows
             (filter (fun a => in_range start_date end_date
                                 (Attendance.date a))
                     (records_of eid db))
        /\ Sorted date_desc l).
Proof.
  split.
  - intros H. apply employee_by_employee_id_None in H.
    unfold get_employee_attendance. now rewrite H.
  - intros H. apply has_employee_found in H. destruct H as [e He].
    unfold get_employee_attendance. rewrite He.
    eexists. eexists. split; [ reflexivity | ].
    fold (records_of eid db). rewrite filter_if_date_range.
    split; [ apply Forall2_shows_to_response | split ].
    + apply order_by_date_desc_perm.
    + apply Sorted_to_response, order_by_date_desc_sorted.
Qed.

(** ** The attendance list *)

(** C8 as it is written does not hold: with the filter
    [employee_id = ""] the handler answers with the row of [E001], which
    does not equal the filter. *)
Lemma list_attendance_empty_employee_id_unfiltered :
  ~ Permutation
      (list_attendance None (Some EmptyString) store_alice_jan1)
      (map to_response
         (filter (matches_filters None (Some EmptyString))
                 (attendance store_alice_jan1))).
Proof.
  intros H. apply Permutation_length in H. vm_compute in H. discriminate.
Qed.

Lemma filter_if_matches d eid l :
  filter_if_str eid (fun s a => String.eqb (Attendance.employee_id a) s)
    (filter_if_date d (fun x a => Attendance.date a =? x) l)
  = filter (matches_filters d (effective_employee_id eid)) l.
Proof.
  unfold matches_filters.
  rewrite (filter_andb
             (fun a => match d with
                       | Some x => Attendance.date a =? x
                       | None => true
                       end)
             (fun a => match effective_employee_id eid with
                       | Some s => String.eqb (Attendance.employee_id a) s
                       | None => true
                       end)).
  assert (Hd : filter_if_date d (fun x a => Attendance.date a =? x) l
               = filter (fun a => match d with
                                  | Some x => Attendance.date a =? x
                                  | None => true
                                  end) l).
  { destruct d; simpl; [ reflexivity | now rewrite filter_true ]. }
  rewrite Hd. destruct eid as [[| c s] |]; simpl;
    try reflexivity; now rewrite filter_true.
Qed.

(** C8, amended: the list shows, field by field and one response per
    row, exactly the rows that equal every filter that is given and not
    empty, latest date first: [date] when it is given, [employee_id]
    when it is given and not the empty string.  The request never fails,
    whether or not an employee has the [employee_id]. *)
Theorem list_attendance_outcome d eid db :
  (exists rows,
      Forall2 shows (list_attendance d eid db) rows
      /\ Permutation rows
           (filter (matches_filters d (effective_employee_id eid))
                   (attendance db)))
  /\ Sorted date_desc (list_attendance d eid db)
  /\ forall validate_email txn,
       serve validate_email txn (GET_attendance d eid) db
       = (db, Ok (some_attendance (list_attendance d eid db))).
Proof.
  split; [ | split ]; [ | | reflexivity ];
    unfold list_attendance; rewrite filter_if_matches.
  - eexists. split; [ apply Forall2_shows_to_response | ].
    apply order_by_date_desc_perm.
  - apply Sorted_to_response, order_by_date_desc_sorted.
Qed.

(** ** The theorems at work on sample data *)

Local Open Scope string_scope.

Lemma store_alice_jan1_reachable :
  reachable sample_validate_email store_alice_jan1.
Proof.
  change store_alice_jan1
    with (fst (serve sample_validate_email (alone store_alice)
                 (POST_attendance
                    (AttendanceBody.mk (Some "E001") (Some jan1) (Some true)))
                 store_alice)).
  apply reachable_serve.
  change store_alice
    with (fst (serve sample_validate_email (alone empty_store)
                 (POST_employees body_alice) empty_store)).
  apply reachable_serve, reachable_empty.
Qed.

Lemma store_alice_jan1_inv : store_inv store_alice_jan1.
Proof. exact (reachable_inv _ _ store_alice_jan1_reachable). Qed.

Lemma store_alice_inv : store_inv store_alice.
Proof.
  apply (reachable_inv sample_validate_email).
  change store_alice
    with (fst (serve sample_validate_email (alone empty_store)
                 (POST_employees body_alice) empty_store)).
  apply reachable_serve, reachable_empty.
Qed.

Lemma mark_attendance_duplicate_conflict_witness :
  (exists detail,
      mark_attendance (alone store_alice_jan1)
        (AttendanceCreate.mk "E001" jan1 false) store_alice_jan1
      = (store_alice_jan1, HTTPException HTTP_409_CONFLICT detail)
      /\ failure (snd (mark_attendance (alone store_alice_jan1)
                         (AttendanceCreate.mk "E001" jan1 false)
                         store_alice_jan1)) = Some Conflict)
  /\ (exists detail,
         mark_attendance (mkTxn store_alice None)
           (AttendanceCreate.mk "E001" jan1 false) store_alice_jan1
         = (store_alice_jan1, HTTPException HTTP_409_CONFLICT detail)
         /\ failure (snd (mark_attendance (mkTxn store_alice None)
                            (AttendanceCreate.mk "E001" jan1 false)
                            store_alice_jan1)) = Some Conflict).
Proof.
  split.
  - apply (mark_attendance_duplicate_conflict (alone store_alice_jan1)).
    left. split; [ exact store_alice_jan1_inv | now left ].
  - apply (mark_attendance_duplicate_conflict (mkTxn store_alice None)).
    right. simpl. repeat split; try (now left). intros [].
Defined.

Lemma post_employees_outcome_witness :
  post_employees sample_validate_email (alone store_alice)
    (EmployeeBody.mk (Some "E002") (Some "Bob") (Some "bob@x.com")
                     (Some "Ops"))
    store_alice
  = (mkStore [alice; Employee.mk 2 "E002" "Bob" "bob@x.com" "Ops"] [] 3 1,
     Ok (Employee.mk 2 "E002" "Bob" "bob@x.com" "Ops")).
Proof.
  destruct (post_employees_outcome sample_validate_email
              (EmployeeBody.mk (Some "E002") (Some "Bob") (Some "bob@x.com")
                               (Some "Ops"))
              store_alice store_alice_inv) as [_ H].
  destruct (H "E002" "Bob" "bob@x.com" "bob@x.com" "Ops" eq_refl)
    as (_ & _ & H3).
  - repeat split; try (eexists; split; [ reflexivity | ]);
      vm_compute; try split; discriminate.
  - reflexivity.
  - apply H3; simpl; intros [E | []]; discriminate.
Defined.

Lemma delete_employee_outcome_witness :
  exists db',
    delete_employee "E001" store_alice_jan1 = (db', Ok tt)
    /\ employees db' = [] /\ attendance db' = []
    /\ list_attendance None (Some "E001") db' = [].
Proof.
  destruct (delete_employee_outcome "E001" store_alice_jan1
              store_alice_jan1_inv) as [_ H].
  destruct H as (db' & H1 & H2 & H3 & _ & _ & H6); [ now left | ].
  exists db'. repeat split; auto.
Defined.

Lemma reachable_store_integrity_witness :
  NoDup (map Employee.employee_id (employees store_alice_jan1))
  /\ NoDup (map Employee.email (employees store_alice_jan1))
  /\ NoDup (map attendance_key (attendance store_alice_jan1))
  /\ Forall (fun a => exists e, In e (employees store_alice_jan1)
               /\ Employee.employee_id e = Attendance.employee_id a)
            (attendance store_alice_jan1).
Proof.
  apply (reachable_store_integrity sample_validate_email).
  exact store_alice_jan1_reachable.
Defined.

Lemma get_attendance_summary_counts_witness :
  exists e,
    In e (employees store_alice_jan1) /\ Employee.employee_id e = "E001"
    /\ get_attendance_summary "E001" store_alice_jan1
       = Ok (AttendanceSummary.mk "E001" (Employee.full_name e) 1 0).
Proof.
  destruct (get_attendance_summary_counts "E001" store_alice_jan1)
    as [_ H].
  destruct H as [H _]; [ now left | exact H ].
Defined.

Lemma get_employee_attendance_outcome_witness :
  exists l rows,
    get_employee_attendance "E001" (Some jan1) None store_alice_jan1 = Ok l
    /\ Forall2 shows l rows
    /\ Permutation rows [Attendance.mk 1 "E001" jan1 true]
    /\ Sorted date_desc l.
Proof.
  destruct (get_employee_attendance_outcome "E001" (Some jan1) None
              store_alice_jan1) as [_ H].
  apply H. now left.
Defined.


(** C9, on the code: marking attendance for [E001] when the commit goes
    through and the refresh after it fails.  The handler answers 400, a
    Validation failure, and its rollback undoes nothing: the row is in
    the store.  The same holds for creating an employee. *)
Theorem refresh_failure_keeps_the_row :
  let lost := Some (RefreshFault "connection lost") in
  mark_attendance (mkTxn store_alice lost)
    (AttendanceCreate.mk "E001" jan1 true) store_alice
  = (store_alice_jan1,
     HTTPException HTTP_400_BAD_REQUEST
       (ErrorCreatingAttendance "connection lost"))
  /\ failure (snd (mark_attendance (mkTxn store_alice lost)
                      (AttendanceCreate.mk "E001" jan1 true) store_alice))
     = Some Validation
  /\ attendance store_alice = []
  /\ attendance store_alice_jan1 = [Attendance.mk 1 "E001" jan1 true]
  /\ create_employee (mkTxn empty_store lost)
       (EmployeeCreate.mk "E001" "Alice" "alice@x.com" "Eng") empty_store
     = (store_alice,
        HTTPException HTTP_400_BAD_REQUEST
          (ErrorCreatingEmployee "connection lost")).
Proof. repeat split. Qed.

Lemma mark_attendance_success_frame_witness :
  attendance store_alice_jan1
  = (attendance store_alice ++ [Attendance.mk 1 "E001" jan1 true])%list
  /\ List.length (attendance store_alice_jan1)
     = S (List.length (attendance store_alice))
  /\ employees store_alice_jan1 = employees store_alice
  /\ AttendanceResponse.employee_id
       (AttendanceResponse.mk 1 "E001" jan1 true) = "E001"
  /\ AttendanceResponse.date (AttendanceResponse.mk 1 "E001" jan1 true)
     = jan1
  /\ AttendanceResponse.is_present
       (AttendanceResponse.mk 1 "E001" jan1 true) = true.
Proof.
  apply (mark_attendance_success_frame (alone store_alice)
           (AttendanceCreate.mk "E001" jan1 true) store_alice
           store_alice_jan1 (AttendanceResponse.mk 1 "E001" jan1 true)).
  reflexivity.
Defined.

(** The scenario of the specification: create [E001], create it again,
    mark 2024-01-01 present, mark it again absent, list that date, delete
    [E001], list by [E001]. *)
Example scenario :
  let step r db := serve sample_validate_email (alone db) r db in
  let mark present :=
    POST_attendance
      (AttendanceBody.mk (Some "E001") (Some jan1) (Some present)) in
  let '(db1, r1) := step (POST_employees body_alice) empty_store in
  let '(db2, r2) := step (POST_employees body_alice) db1 in
  let '(db3, r3) := step (mark true) db2 in
  let '(db4, r4) := step (mark false) db3 in
  let '(db5, r5) := step (GET_attendance (Some jan1) None) db4 in
  let '(db6, r6) := step (DELETE_employee "E001") db5 in
  let '(db7, r7) := step (GET_attendance None (Some "E001")) db6 in
  r1 = Ok (an_employee alice)
  /\ failure r2 = Some Conflict
  /\ r3 = Ok (an_attendance (AttendanceResponse.mk 1 "E001" jan1 true))
  /\ failure r4 = Some Conflict
  /\ r5 = Ok (some_attendance [AttendanceResponse.mk 1 "E001" jan1 true])
  /\ r6 = Ok no_content
  /\ r7 = Ok (some_attendance [])
  /\ employees db7 = [] /\ attendance db7 = [].
Proof. vm_compute. repeat split. Qed.

Local Close Scope string_scope.

(** ** Fetching and listing employees *)

Lemma store_inv_lookup db e :
  store_inv db -> In e (employees db) ->
  employee_by_employee_id db (Employee.employee_id e) = Some e.
Proof.
  intros Hinv Hin.
  destruct (employee_by_employee_id db (Employee.employee_id e))
    as [e' |] eqn:E.
  - apply employee_by_employee_id_Some in E. destruct E as [Hin' Heq].
    f_equal.
    eapply NoDup_map_In_eq with (f := Employee.employee_id);
      eauto using inv_employee_id.
  - apply employee_by_employee_id_None in E. exfalso. apply E.
    unfold has_employee. now apply in_map.
Qed.

Lemma find_snoc_fresh {A} (p : A -> bool) (l : list A) (x : A) :
  existsb p l = false -> p x = true -> find p (l ++ [x]) = Some x.
Proof.
  induction l as [| a l IH]; simpl; intros Hl Hx.
  - now rewrite Hx.
  - apply orb_false_iff in Hl. destruct Hl as [Ha Hl].
    rewrite Ha. now apply IH.
Qed.

(** [get_employee] answers 404 exactly for an [employee_id] that no
    employee has.  In a store that keeps its integrity it returns each
    listed employee under that employee's [employee_id], and whatever it
    returns is listed and carries the [employee_id] asked for. *)
Theorem get_employee_outcome eid db :
  store_inv db ->
  (~ has_employee db eid <->
   get_employee eid db
   = HTTPException HTTP_404_NOT_FOUND (EmployeeNotFound eid))
  /\ (forall e, In e (list_employees db) ->
                get_employee (Employee.employee_id e) db = Ok e)
  /\ (forall e, get_employee eid db = Ok e ->
                In e (list_employees db) /\ Employee.employee_id e = eid).
Proof.
  intros Hinv. unfold get_employee, list_employees. split; [ | split ].
  - rewrite <- employee_by_employee_id_None.
    destruct (employee_by_employee_id db eid); split; congruence.
  - intros e Hin. now rewrite (store_inv_lookup db e Hinv Hin).
  - intros e H.
    destruct (employee_by_employee_id db eid) as [e' |] eqn:E;
      [ | discriminate ].
    inversion H; subst. now apply employee_by_employee_id_Some.
Qed.

(** ** Creating, then reading *)

(** After a successful [create_employee], whatever its reads saw,
    [get_employee] under the new [employee_id] returns the created row
    with the primary key it was given; the row is the last of the list
    and carries the four fields of the request. *)
Theorem create_then_get txn employee db db' row :
  create_employee txn employee db = (db', Ok row) ->
  get_employee (EmployeeCreate.employee_id employee) db' = Ok row
  /\ list_employees db' = list_employees db ++ [row]
  /\ row = Employee.mk (employees_next_id db)
             (EmployeeCreate.employee_id employee)
             (EmployeeCreate.full_name employee)
             (EmployeeCreate.email employee)
             (EmployeeCreate.department employee).
Proof.
  intros H. apply create_employee_Ok, insert_employee_inr in H.
  destruct H as (_ & Hv & Hrow & ->).
  apply orb_false_iff in Hv. destruct Hv as [Hid _].
  unfold get_employee, employee_by_employee_id, list_employees. simpl.
  rewrite find_snoc_fresh; auto.
  subst row. simpl. apply String.eqb_refl.
Qed.

(** After a successful [create_employee], a second request with the same
    [employee_id] fails with 409 "Employee ID already exists", one with
    the same [email] fails with 409, and the store keeps only the
    first. *)
Theorem create_twice_conflict txn employee db db' row other :
  create_employee txn employee db = (db', Ok row) ->
  (EmployeeCreate.employee_id other = EmployeeCreate.employee_id employee ->
   create_employee (alone db') other db'
   = (db', HTTPException HTTP_409_CONFLICT EmployeeIdExists))
  /\ (EmployeeCreate.email other = EmployeeCreate.email employee ->
      exists detail,
        create_employee (alone db') other db'
        = (db', HTTPException HTTP_409_CONFLICT detail)).
Proof.
  intros H. apply create_employee_Ok, insert_employee_inr in H.
  destruct H as (_ & Hv & Hrow & ->).
  apply orb_false_iff in Hv. destruct Hv as [Hid Hmail].
  unfold create_employee, alone, employee_by_employee_id, employee_by_email.
  simpl. split.
  - intros ->. rewrite find_snoc_fresh; auto.
    subst row. simpl. apply String.eqb_refl.
  - intros ->.
    destruct (truthy (find _ (employees db ++ [row])));
      [ eexists; reflexivity | ].
    rewrite find_snoc_fresh; [ eexists; reflexivity | assumption | ].
    subst row. simpl. apply String.eqb_refl.
Qed.

(** ** Marking, then reading *)

Lemma mark_attendance_Ok_store txn att db db' r :
  mark_attendance txn att db = (db', Ok r) ->
  let row := Attendance.mk (attendance_next_id db)
               (AttendanceCreate.employee_id att) (AttendanceCreate.date att)
               (AttendanceCreate.is_present att) in
  r = to_response row
  /\ employees db' = employees db
  /\ attendance db' = attendance db ++ [row]
  /\ ~ In (AttendanceCreate.employee_id att, AttendanceCreate.date att)
         (map attendance_key (attendance db))
  /\ has_employee db (AttendanceCreate.employee_id att).
Proof.
  intros H. apply mark_attendance_Ok in H. destruct H as (row & H & ->).
  apply insert_attendance_inr in H. destruct H as (_ & Hv & -> & ->).
  apply orb_false_iff in Hv. destruct Hv as [Hkey Hfk].
  apply negb_false_iff in Hfk. simpl. repeat split.
  - rewrite <- existsb_key_In. congruence.
  - now apply existsb_eqb_In.
Qed.

Lemma has_employee_nonempty db eid :
  store_inv db -> has_employee db eid -> eid <> EmptyString.
Proof.
  intros Hinv H. apply in_map_iff in H. destruct H as (e & <- & Hin).
  pose proof (inv_employee_id_nonempty db Hinv) as Hf.
  rewrite Forall_forall in Hf. now apply Hf.
Qed.

Lemma filter_if_str_nonempty s p q :
  s <> EmptyString -> filter_if_str (Some s) p q = filter (p s) q.
Proof. destruct s; [ congruence | reflexivity ]. Qed.

(** After a successful [mark_attendance] on a store that keeps its
    integrity, the attendance list filtered by the request's date and
    [employee_id] is exactly the returned record, and the employee's own
    attendance listing holds it. *)
Theorem mark_then_list txn att db db' r :
  store_inv db ->
  mark_attendance txn att db = (db', Ok r) ->
  list_attendance (Some (AttendanceCreate.date att))
                  (Some (AttendanceCreate.employee_id att)) db' = [r]
  /\ exists l,
       get_employee_attendance (AttendanceCreate.employee_id att) None None
                               db' = Ok l
       /\ In r l.
Proof.
  intros Hinv H. apply mark_attendance_Ok_store in H.
  destruct H as (-> & Hemp & Hatt & Hfresh & Hhas).
  pose proof (has_employee_nonempty _ _ Hinv Hhas) as Hne.
  split.
  - unfold list_attendance. rewrite Hatt.
    rewrite filter_if_str_nonempty by assumption.
    unfold filter_if_date. rewrite !filter_app.
    rewrite (filter_none _ (filter _ (attendance db))).
    + cbn [filter Attendance.date Attendance.employee_id app].
      rewrite Z.eqb_refl.
      cbn [filter Attendance.date Attendance.employee_id app].
      now rewrite String.eqb_refl.
    + intros a Ha. apply filter_In in Ha. destruct Ha as [Ha Hd].
      apply Z.eqb_eq in Hd.
      destruct (String.eqb_spec (Attendance.employee_id a)
                  (AttendanceCreate.employee_id att)) as [E | E];
        [ | reflexivity ].
      exfalso. apply Hfresh. apply in_map_iff. exists a.
      unfold attendance_key. now rewrite E, Hd.
  - unfold get_employee_attendance.
    assert (Hfind : employee_by_employee_id db'
                      (AttendanceCreate.employee_id att) <> None).
    { rewrite employee_by_employee_id_None. unfold has_employee.
      rewrite Hemp. tauto. }
    destruct (employee_by_employee_id db' _); [ | congruence ].
    eexists. split; [ reflexivity | ].
    apply in_map. simpl.
    eapply Permutation_in;
      [ symmetry; apply order_by_date_desc_perm | ].
    apply filter_In. rewrite Hatt. split.
    + apply in_or_app. right. now left.
    + simpl. apply String.eqb_refl.
Qed.

Lemma count_snoc (p : Attendance.t -> bool) db db' row :
  attendance db' = attendance db ++ [row] ->
  or_0 (count_scalar p db') = or_0 (count_scalar p db) + one_if (p row).
Proof.
  intros H. unfold count_scalar. rewrite !or_0_Some, H, filter_app.
  rewrite length_app. simpl. destruct (p row); simpl; lia.
Qed.

(** A successful [mark_attendance] adds one to the count of its kind
    (present or absent) in the summary of its employee, leaves the other
    count as it was, and leaves the summary of every other [employee_id]
    as it was. *)
Theorem mark_then_summary txn att db db' r :
  mark_attendance txn att db = (db', Ok r) ->
  (exists s,
      get_attendance_summary (AttendanceCreate.employee_id att) db = Ok s
      /\ get_attendance_summary (AttendanceCreate.employee_id att) db'
         = Ok (AttendanceSummary.mk
                 (AttendanceSummary.employee_id s)
                 (AttendanceSummary.full_name s)
                 (AttendanceSummary.total_present_days s
                  + one_if (AttendanceCreate.is_present att))
                 (AttendanceSummary.total_absent_days s
                  + one_if (negb (AttendanceCreate.is_present att)))))
  /\ (forall eid,
         eid <> AttendanceCreate.employee_id att ->
         get_attendance_summary eid db' = get_attendance_summary eid db).
Proof.
  intros H. apply mark_attendance_Ok_store in H.
  destruct H as (_ & Hemp & Hatt & _ & Hhas).
  unfold get_attendance_summary, employee_by_employee_id. rewrite Hemp.
  split.
  - apply has_employee_found in Hhas. destruct Hhas as [e He].
    unfold employee_by_employee_id in He. rewrite He.
    eexists. split; [ reflexivity | ].
    rewrite !(count_snoc _ db db' _ Hatt).
    cbn [Attendance.employee_id Attendance.is_present
         AttendanceSummary.employee_id AttendanceSummary.full_name
         AttendanceSummary.total_present_days
         AttendanceSummary.total_absent_days].
    rewrite String.eqb_refl.
    now destruct (AttendanceCreate.is_present att).
  - intros eid Hneq.
    destruct (find _ (employees db)); [ | reflexivity ].
    rewrite !(count_snoc _ db db' _ Hatt).
    cbn [Attendance.employee_id Attendance.is_present].
    apply String.eqb_neq in Hneq. rewrite String.eqb_sym in Hneq.
    rewrite Hneq. cbn [andb one_if]. now rewrite !Z.add_0_r.
Qed.

Lemma length_filter_perm {A} (p : A -> bool) (l l' : list A) :
  Permutation l l' ->
  List.length (filter p l) = List.length (filter p l').
Proof.
  induction 1 as [| x l l' _ IH | x y l | l l' l'' _ IH1 _ IH2]; simpl.
  - reflexivity.
  - destruct (p x); simpl; congruence.
  - destruct (p x), (p y); reflexivity.
  - congruence.
Qed.

Lemma length_filter_map {A B} (f : A -> B) (p : B -> bool) (l : list A) :
  List.length (filter p (map f l))
  = List.length (filter (fun a => p (f a)) l).
Proof.
  induction l as [| a l IH]; simpl; [ reflexivity | ].
  destruct (p (f a)); simpl; congruence.
Qed.

Lemma or_0_count p db :
  or_0 (count_scalar p db)
  = Z.of_nat (List.length (filter p (attendance db))).
Proof. unfold count_scalar. apply or_0_Some. Qed.

(** The summary counts the entries of the employee's attendance listing:
    the present days are the entries with [is_present] true, the absent
    days those with [is_present] false, and together they are all of
    them. *)
Theorem summary_counts_the_listing eid db s :
  get_attendance_summary eid db = Ok s ->
  exists l,
    get_employee_attendance eid None None db = Ok l
    /\ AttendanceSummary.total_present_days s
       = Z.of_nat (List.length (filter AttendanceResponse.is_present l))
    /\ AttendanceSummary.total_absent_days s
       = Z.of_nat (List.length
                     (filter (fun r => negb (AttendanceResponse.is_present r))
                             l))
    /\ AttendanceSummary.total_present_days s
       + AttendanceSummary.total_absent_days s
       = Z.of_nat (List.length l).
Proof.
  unfold get_attendance_summary, get_employee_attendance.
  destruct (employee_by_employee_id db eid) as [e |]; [ | discriminate ].
  rewrite !or_0_count. intros H. injection H as <-.
  eexists. split; [ reflexivity | ].
  cbn [AttendanceSummary.total_present_days
       AttendanceSummary.total_absent_days filter_if_date].
  rewrite !filter_andb.
  fold (records_of eid db).
  rewrite !length_filter_map.
  cbn [to_response AttendanceResponse.is_present].
  rewrite !(length_filter_perm _ _ _ (order_by_date_desc_perm _)).
  rewrite length_map, (Permutation_length (order_by_date_desc_perm _)).
  rewrite (filter_ext (fun a => Bool.eqb (Attendance.is_present a) true)
                      Attendance.is_present)
    by (intros a; now destruct (Attendance.is_present a)).
  rewrite (filter_ext (fun a => Bool.eqb (Attendance.is_present a) false)
                      (fun a => negb (Attendance.is_present a)))
    by (intros a; now destruct (Attendance.is_present a)).
  repeat split. apply length_filter_split.
Qed.

Lemma filter_filter {A} (p q : A -> bool) (l : list A) :
  filter q (filter p l) = filter (fun a => p a && q a) l.
Proof. symmetry. apply filter_andb. Qed.

(** For an employee in the store whose [employee_id] is not empty, the
    employee's own listing is the attendance list filtered by that
    [employee_id]; with both bounds on one day it is the attendance list
    filtered by that day and that [employee_id]. *)
Theorem employee_listing_is_filtered_list eid d db :
  has_employee db eid -> eid <> EmptyString ->
  get_employee_attendance eid None None db
  = Ok (list_attendance None (Some eid) db)
  /\ get_employee_attendance eid (Some d) (Some d) db
     = Ok (list_attendance (Some d) (Some eid) db).
Proof.
  intros Hhas Hne. apply has_employee_found in Hhas.
  destruct Hhas as [e He].
  unfold get_employee_attendance, list_attendance. rewrite He.
  rewrite !filter_if_str_nonempty by assumption.
  unfold filter_if_date. split.
  - reflexivity.
  - do 3 f_equal. rewrite !filter_filter. apply filter_ext. intros a.
    destruct (String.eqb (Attendance.employee_id a) eid);
      simpl; rewrite ?andb_false_r; [ | reflexivity ].
    rewrite andb_true_r, Z.geb_leb.
    destruct (Z.eqb_spec (Attendance.date a) d) as [-> | E].
    + now rewrite Z.leb_refl.
    + apply andb_false_iff.
      destruct (Z.leb_spec d (Attendance.date a)); [ right | now left ].
      apply Z.leb_gt. lia.
Qed.

(** ** What the insert of [mark_attendance] can meet *)

(** When the employee that the handler's query saw is gone from the
    store by the time of the insert, the foreign key fails the insert
    and the handler answers 409 "Attendance record already exists",
    though the store has no such record; nothing is written. *)
Theorem mark_attendance_employee_gone txn att db :
  has_employee (snapshot txn) (AttendanceCreate.employee_id att) ->
  ~ In (AttendanceCreate.employee_id att, AttendanceCreate.date att)
       (map attendance_key (attendance (snapshot txn))) ->
  fault txn = None ->
  ~ has_employee db (AttendanceCreate.employee_id att) ->
  mark_attendance txn att db
  = (db, HTTPException HTTP_409_CONFLICT AttendanceRecordExists).
Proof.
  intros Hhas Hfresh Hfault Hgone.
  apply has_employee_found in Hhas. destruct Hhas as [e He].
  rewrite <- attendance_by_employee_date_truthy in Hfresh.
  apply not_true_is_false in Hfresh.
  unfold has_employee in Hgone. rewrite <- existsb_eqb_In in Hgone.
  apply not_true_is_false in Hgone.
  unfold mark_attendance, insert_attendance, violates_attendance_constraints.
  rewrite He, Hfresh, Hfault, Hgone. simpl. now rewrite orb_true_r.
Qed.

Lemma violates_attendance_constraints_false db eid d :
  violates_attendance_constraints db eid d = false
  <-> ~ In (eid, d) (map attendance_key (attendance db))
      /\ has_employee db eid.
Proof.
  unfold violates_attendance_constraints, has_employee.
  rewrite orb_false_iff, negb_false_iff, <- existsb_key_In, <- existsb_eqb_In.
  split; intros [H1 H2]; split; auto.
  - congruence.
  - now apply not_true_is_false.
Qed.

(** [mark_attendance] answers 400 "Error creating attendance record"
    exactly when both of its checks pass and the engine fails for a
    reason that is not a constraint: on the commit, and then nothing is
    written; or on the refresh after a commit that met no constraint,
    and then the new row is in the store.  The answer carries the
    engine's message. *)
Theorem mark_attendance_400_iff_fault txn att db e :
  let eid := AttendanceCreate.employee_id att in
  let d := AttendanceCreate.date att in
  let answer := mark_attendance txn att db in
  (snd answer
   = HTTPException HTTP_400_BAD_REQUEST (ErrorCreatingAttendance e)
   <-> has_employee (snapshot txn) eid
       /\ ~ In (eid, d) (map attendance_key (attendance (snapshot txn)))
       /\ (fault txn = Some (CommitFault e)
           \/ (fault txn = Some (RefreshFault e)
               /\ ~ In (eid, d) (map attendance_key (attendance db))
               /\ has_employee db eid)))
  /\ (fault txn = Some (CommitFault e) -> fst answer = db)
  /\ (fault txn = Some (RefreshFault e) ->
      snd answer
      = HTTPException HTTP_400_BAD_REQUEST (ErrorCreatingAttendance e) ->
      fst answer
      = mkStore (employees db)
          (attendance db
           ++ [Attendance.mk (attendance_next_id db) eid d
                 (AttendanceCreate.is_present att)])
          (employees_next_id db) (attendance_next_id db + 1)).
Proof.
  intros eid d answer. subst eid d answer.
  rewrite <- attendance_by_employee_date_truthy.
  rewrite <- violates_attendance_constraints_false.
  unfold mark_attendance, insert_attendance, refresh.
  destruct (employee_by_employee_id (snapshot txn) _) as [x |] eqn:He.
  - assert (Hhas : has_employee (snapshot txn)
                     (AttendanceCreate.employee_id att)).
    { apply employee_by_employee_id_Some in He. destruct He as [Hin <-].
      unfold has_employee. now apply in_map. }
    destruct (truthy (attendance_by_employee_date _ _ _)).
    + split; [ split | split ]; try discriminate; try reflexivity.
      intros (_ & H & _). now exfalso.
    + destruct (fault txn) as [[msg | msg] |];
        destruct (violates_attendance_constraints _ _ _); simpl;
        (split; [ split | split ]); try discriminate; try reflexivity;
        try (intros H; injection H as ->; auto 6);
        try (intros (_ & _ & [H | (H & H' & _)]);
             try discriminate; try (injection H as ->); reflexivity);
        try (intros (_ & _ & [H | (H & H')]);
             try discriminate; try (injection H as ->); reflexivity).
  - split; [ split | split ]; try discriminate; try reflexivity.
    intros (H & _). apply employee_by_employee_id_None in He. contradiction.
Qed.

(** ** Deleting, then reading *)

Lemma find_filter_same {A} (p q : A -> bool) (l : list A) :
  (forall a, p a = true -> q a = true) ->
  find p (filter q l) = find p l.
Proof.
  intros H. induction l as [| a l IH]; simpl; [ reflexivity | ].
  destruct (q a) eqn:Hq; simpl.
  - destruct (p a); auto.
  - destruct (p a) eqn:Hp; auto. apply H in Hp. congruence.
Qed.

Lemma filter_filter_same {A} (p q : A -> bool) (l : list A) :
  (forall a, p a = true -> q a = true) ->
  filter p (filter q l) = filter p l.
Proof.
  intros H. induction l as [| a l IH]; simpl; [ reflexivity | ].
  destruct (q a) eqn:Hq; simpl.
  - destruct (p a); now rewrite IH.
  - destruct (p a) eqn:Hp; auto. apply H in Hp. congruence.
Qed.

Lemma delete_employee_Ok eid db db' :
  store_inv db -> delete_employee eid db = (db', Ok tt) ->
  exists e,
    In e (employees db) /\ Employee.employee_id e = eid
    /\ employees db'
       = filter (fun x => negb (String.eqb (Employee.employee_id x) eid))
                (employees db)
    /\ attendance db'
       = filter (fun a => negb (String.eqb (Attendance.employee_id a) eid))
                (attendance db)
    /\ employees_next_id db' = employees_next_id db
    /\ attendance_next_id db' = attendance_next_id db.
Proof.
  intros Hinv. unfold delete_employee.
  destruct (employee_by_employee_id db eid) as [e |] eqn:He;
    [ | discriminate ].
  intros H. injection H as <-.
  apply employee_by_employee_id_Some in He. destruct He as [Hin Heid].
  exists e. simpl. rewrite Heid. repeat split; auto.
  apply filter_ext_in. intros x Hx. f_equal.
  destruct (Z.eqb_spec (Employee.id x) (Employee.id e)) as [E | E].
  - assert (x = e)
      by (eapply NoDup_map_In_eq with (f := Employee.id);
          eauto using inv_employee_pk).
    subst x. rewrite Heid. symmetry. apply String.eqb_refl.
  - symmetry. apply String.eqb_neq. intros E'. apply E.
    assert (x = e)
      by (eapply NoDup_map_In_eq with (f := Employee.employee_id);
          eauto using inv_employee_id; congruence).
    now subst x.
Qed.

Lemma delete_employee_Ok_lookup eid db db' :
  store_inv db -> delete_employee eid db = (db', Ok tt) ->
  employee_by_employee_id db' eid = None.
Proof.
  intros Hinv H. apply delete_employee_Ok in H; [ | assumption ].
  destruct H as (e & _ & _ & Hemp & _).
  apply employee_by_employee_id_None. unfold has_employee. rewrite Hemp.
  intros Hx. apply in_map_iff in Hx. destruct Hx as (x & Hx & Hxin).
  apply filter_In in Hxin. destruct Hxin as [_ Hxin].
  rewrite Hx, String.eqb_refl in Hxin. discriminate.
Qed.

(** After a successful delete on a store that keeps its integrity, every
    handler that looks the employee up answers 404 for that
    [employee_id]: fetching it, its attendance listing with any bounds,
    its summary, deleting it again, and marking attendance for it. *)
Theorem deleted_employee_is_gone eid db db' :
  store_inv db ->
  delete_employee eid db = (db', Ok tt) ->
  get_employee eid db' = not_found eid
  /\ (forall s e, get_employee_attendance eid s e db' = not_found eid)
  /\ get_attendance_summary eid db' = not_found eid
  /\ delete_employee eid db' = (db', not_found eid)
  /\ (forall d present,
         mark_attendance (alone db') (AttendanceCreate.mk eid d present) db'
         = (db', not_found eid)).
Proof.
  intros Hinv H. pose proof (delete_employee_Ok_lookup _ _ _ Hinv H) as Hno.
  unfold get_employee, get_employee_attendance, get_attendance_summary,
    delete_employee, mark_attendance, alone, not_found.
  simpl. rewrite Hno. repeat split.
Qed.

(** A successful delete on a store that keeps its integrity changes
    nothing that another [employee_id] can see: fetching it, its
    attendance listing with any bounds and its summary answer as
    before. *)
Theorem delete_employee_frame eid other db db' :
  store_inv db ->
  delete_employee eid db = (db', Ok tt) ->
  other <> eid ->
  get_employee other db' = get_employee other db
  /\ (forall s e, get_employee_attendance other s e db'
                  = get_employee_attendance other s e db)
  /\ get_attendance_summary other db' = get_attendance_summary other db.
Proof.
  intros Hinv H Hneq. apply delete_employee_Ok in H; [ | assumption ].
  destruct H as (x & _ & _ & Hemp & Hatt & _).
  assert (Hfind : employee_by_employee_id db' other
                  = employee_by_employee_id db other).
  { unfold employee_by_employee_id. rewrite Hemp.
    apply find_filter_same. intros a Ha. apply String.eqb_eq in Ha.
    apply negb_true_iff, String.eqb_neq. congruence. }
  assert (Hrows : forall q : Attendance.t -> bool,
             filter (fun a => String.eqb (Attendance.employee_id a) other
                              && q a) (attendance db')
             = filter (fun a => String.eqb (Attendance.employee_id a) other
                                && q a) (attendance db)).
  { intros q. rewrite Hatt. apply filter_filter_same. intros a Ha.
    apply andb_true_iff in Ha. destruct Ha as [Ha _].
    apply String.eqb_eq in Ha.
    apply negb_true_iff, String.eqb_neq. congruence. }
  unfold get_employee, get_employee_attendance, get_attendance_summary.
  rewrite Hfind. repeat split.
  - intros s e. destruct (employee_by_employee_id db other); auto.
    pose proof (Hrows (fun _ => true)) as Ht.
    rewrite !(filter_ext
                (fun a => String.eqb (Attendance.employee_id a) other && true)
                (fun a => String.eqb (Attendance.employee_id a) other))
      in Ht by (intros a; apply andb_true_r).
    now rewrite Ht.
  - destruct (employee_by_employee_id db other); auto.
    unfold count_scalar. now rewrite !Hrows.
Qed.

(** After a successful delete on a store that keeps its integrity, the
    deleted employee's [employee_id] and [email] are free again: a create
    request with both succeeds, appends one row with the fields of the
    request, and leaves the other rows as they are. *)
Theorem delete_then_create e name dept db db' :
  store_inv db ->
  In e (employees db) ->
  delete_employee (Employee.employee_id e) db = (db', Ok tt) ->
  exists db'' row,
    create_employee (alone db')
      (EmployeeCreate.mk (Employee.employee_id e) name (Employee.email e)
                         dept)
      db'
    = (db'', Ok row)
    /\ employees db'' = employees db' ++ [row]
    /\ attendance db'' = attendance db'
    /\ Employee.employee_id row = Employee.employee_id e
    /\ Employee.full_name row = name
    /\ Employee.email row = Employee.email e
    /\ Employee.department row = dept.
Proof.
  intros Hinv Hin H.
  pose proof (delete_employee_Ok_lookup _ _ _ Hinv H) as Hno.
  apply delete_employee_Ok in H; [ | assumption ].
  destruct H as (x & _ & _ & Hemp & _ & Hn1 & Hn2).
  assert (Hmail : existsb (fun y => String.eqb (Employee.email y)
                                                (Employee.email e))
                          (employees db') = false).
  { apply not_true_is_false. rewrite existsb_exists.
    intros (y & Hy & Hym). apply String.eqb_eq in Hym.
    rewrite Hemp in Hy. apply filter_In in Hy. destruct Hy as [Hy Hne].
    assert (y = e)
      by (eapply NoDup_map_In_eq with (f := Employee.email);
          eauto using inv_email).
    subst y. rewrite String.eqb_refl in Hne. discriminate. }
  assert (Hid : existsb (fun y => String.eqb (Employee.employee_id y)
                                              (Employee.employee_id e))
                        (employees db') = false).
  { rewrite <- truthy_find_existsb.
    unfold employee_by_employee_id in Hno. now rewrite Hno. }
  unfold create_employee, alone, employee_by_email, insert_employee,
    violates_employee_unique, refresh.
  simpl. rewrite Hno, truthy_find_existsb, Hmail, Hid. simpl.
  eexists. eexists. split; [ reflexivity | ]. simpl. repeat split.
Qed.

(** ** Requests that run one after the other *)

(** When a request reads the store it writes to and the engine reports
    no failure, [create_employee] fails only with one of its two 409
    checks and [mark_attendance] only with its 404 or its 409 check: the
    insert never fails. *)
Theorem sequential_failures_come_from_checks employee att db :
  (forall s d,
      snd (create_employee (alone db) employee db) = HTTPException s d ->
      s = HTTP_409_CONFLICT /\ (d = EmployeeIdExists \/ d = EmailExists))
  /\ (forall s d,
         snd (mark_attendance (alone db) att db) = HTTPException s d ->
         (s = HTTP_404_NOT_FOUND
          /\ d = EmployeeNotFound (AttendanceCreate.employee_id att))
         \/ (s = HTTP_409_CONFLICT
             /\ d = AttendanceExists (AttendanceCreate.employee_id att)
                      (AttendanceCreate.date att))).
Proof.
  split; intros s d.
  - unfold create_employee, alone, insert_employee, violates_employee_unique,
      employee_by_employee_id, employee_by_email.
    simpl. rewrite !truthy_find_existsb.
    set (id_taken :=
           existsb (fun e => String.eqb (Employee.employee_id e)
                               (EmployeeCreate.employee_id employee))
                   (employees db)).
    set (email_taken :=
           existsb (fun e => String.eqb (Employee.email e)
                               (EmployeeCreate.email employee))
                   (employees db)).
    destruct id_taken, email_taken; simpl; intros H; inversion H; auto.
  - unfold mark_attendance, alone, insert_attendance,
      violates_attendance_constraints, attendance_by_employee_date.
    simpl.
    destruct (employee_by_employee_id db _) as [e |] eqn:He; simpl.
    + rewrite truthy_find_existsb.
      destruct (existsb _ (attendance db)) eqn:E1; simpl.
      * intros H; inversion H; auto.
      * unfold employee_by_employee_id in He.
        rewrite <- (truthy_find_existsb _ (employees db)), He. simpl.
        discriminate.
    + intros H; inversion H; auto.
Qed.

(** ** More that every reachable store keeps *)

Lemma validate_AttendanceCreate_Some body att :
  validate_AttendanceCreate body = Some att ->
  AttendanceBody.employee_id body = Some (AttendanceCreate.employee_id att)
  /\ AttendanceBody.date body = Some (AttendanceCreate.date att)
  /\ AttendanceBody.is_present body = Some (AttendanceCreate.is_present att)
  /\ 1 <= str_len (AttendanceCreate.employee_id att) <= 50.
Proof.
  unfold validate_AttendanceCreate.
  destruct body as [[eid |] [d |] [present |]]; simpl; try discriminate.
  destruct (length_between 1 50 eid) eqn:E; [ | discriminate ].
  intros H. injection H as <-. simpl.
  apply length_between_spec in E. auto.
Qed.

Lemma serve_rows_in_bounds validate_email txn r db :
  rows_in_bounds db ->
  rows_in_bounds (fst (serve validate_email txn r db)).
Proof.
  intros [He Ha]. destruct r; simpl; try (split; assumption).
  - unfold post_employees.
    destruct (validate_EmployeeCreate validate_email body) as [e |] eqn:E;
      simpl; [ | split; assumption ].
    apply validate_EmployeeCreate_Some in E.
    destruct E as (mail & _ & _ & _ & _ & _ & L1 & L2 & L3).
    apply length_between_spec in L1, L2, L3.
    pose proof (create_employee_store txn e db) as C.
    destruct (create_employee txn e db) as [db' res]. simpl in *.
    destruct C as [-> | (row & C)]; [ split; assumption | ].
    apply insert_employee_inr in C.
    destruct C as (_ & _ & -> & ->). split; simpl; [ | assumption ].
    apply Forall_app. split; [ assumption | ].
    constructor; [ | constructor ].
    unfold employee_in_bounds. simpl. auto.
  - unfold delete_employee.
    destruct (employee_by_employee_id db employee_id); simpl;
      split; try assumption; now apply Forall_filter_keep.
  - unfold post_attendance.
    destruct (validate_AttendanceCreate body) as [a |] eqn:E;
      simpl; [ | split; assumption ].
    apply validate_AttendanceCreate_Some in E.
    destruct E as (_ & _ & _ & L).
    pose proof (mark_attendance_store txn a db) as C.
    destruct (mark_attendance txn a db) as [db' res]. simpl in *.
    destruct C as [-> | (row & C)]; [ split; assumption | ].
    apply insert_attendance_inr in C.
    destruct C as (_ & _ & -> & ->). split; simpl; [ assumption | ].
    apply Forall_app. split; [ assumption | ].
    constructor; [ | constructor ]. simpl. exact L.
Qed.

(** In every state of the store that a sequence of requests can produce,
    every employee's [employee_id] has 1 to 50 characters and its
    [full_name] and [department] 1 to 100, as the schema asks, and every
    attendance row's [employee_id] has 1 to 50 characters. *)
Theorem reachable_rows_in_bounds validate_email db :
  reachable validate_email db ->
  Forall employee_in_bounds (employees db)
  /\ Forall (fun a => 1 <= str_len (Attendance.employee_id a) <= 50)
            (attendance db).
Proof.
  induction 1 as [| db txn r _ IH].
  - split; constructor.
  - now apply serve_rows_in_bounds.
Qed.

(** In every state of the store that a sequence of requests can produce,
    the primary keys of each table are distinct, positive and below the
    table's next key. *)
Theorem reachable_primary_keys validate_email db :
  reachable validate_email db ->
  NoDup (map Employee.id (employees db))
  /\ NoDup (map Attendance.id (attendance db))
  /\ Forall (fun e => 1 <= Employee.id e < employees_next_id db)
            (employees db)
  /\ Forall (fun a => 1 <= Attendance.id a < attendance_next_id db)
            (attendance db).
Proof.
  intros H.
  assert (Hpos : (1 <= employees_next_id db /\ 1 <= attendance_next_id db)
                 /\ Forall (fun e => 1 <= Employee.id e) (employees db)
                 /\ Forall (fun a => 1 <= Attendance.id a) (attendance db)).
  { induction H as [| db txn r _ IH].
    - simpl. repeat split; try lia; constructor.
    - destruct IH as ((N1 & N2) & He & Ha).
      destruct r; simpl; try (repeat split; assumption).
      + unfold post_employees.
        destruct (validate_EmployeeCreate validate_email body) as [e |];
          simpl; [ | repeat split; assumption ].
        pose proof (create_employee_store txn e db) as C.
        destruct (create_employee txn e db) as [db' res]. simpl in *.
        destruct C as [-> | (row & C)]; [ repeat split; assumption | ].
        apply insert_employee_inr in C.
        destruct C as (_ & _ & -> & ->). simpl.
        repeat split; try lia; try assumption.
        apply Forall_app. split; [ assumption | ].
        repeat constructor. simpl. lia.
      + unfold delete_employee.
        destruct (employee_by_employee_id db employee_id); simpl;
          repeat split; try assumption; now apply Forall_filter_keep.
      + unfold post_attendance.
        destruct (validate_AttendanceCreate body) as [a |];
          simpl; [ | repeat split; assumption ].
        pose proof (mark_attendance_store txn a db) as C.
        destruct (mark_attendance txn a db) as [db' res]. simpl in *.
        destruct C as [-> | (row & C)]; [ repeat split; assumption | ].
        apply insert_attendance_inr in C.
        destruct C as (_ & _ & -> & ->). simpl.
        repeat split; try lia; try assumption.
        apply Forall_app. split; [ assumption | ].
        repeat constructor. simpl. lia. }
  destruct Hpos as (_ & He & Ha).
  apply reachable_inv in H.
  destruct H as [Hpk Hpklt _ _ _ Hapk Hapklt _ _].
  repeat split; try assumption.
  - rewrite Forall_forall in *. intros e Hin.
    specialize (He e Hin). specialize (Hpklt e Hin). lia.
  - rewrite Forall_forall in *. intros a Hin.
    specialize (Ha a Hin). specialize (Hapklt a Hin). lia.
Qed.

Lemma NoDup_dates_of_employee eid l :
  NoDup (map attendance_key l) ->
  NoDup (map Attendance.date
           (filter (fun a => String.eqb (Attendance.employee_id a) eid) l)).
Proof.
  induction l as [| a l IH]; simpl; intros H; [ constructor | ].
  inversion H as [| ? ? Hnotin Hrest]; subst.
  destruct (String.eqb_spec (Attendance.employee_id a) eid) as [E | E];
    simpl; auto.
  constructor; auto.
  intros Hin. apply Hnotin.
  apply in_map_iff in Hin. destruct Hin as (b & Hb & Hin).
  apply filter_In in Hin. destruct Hin as [Hin Hbe].
  apply String.eqb_eq in Hbe.
  apply in_map_iff. exists b. split; [ | assumption ].
  unfold attendance_key. congruence.
Qed.

(** In a store that keeps its integrity, the attendance listing of an
    employee has at most one entry per date, and no entry twice. *)
Theorem employee_listing_one_per_date eid start_date end_date db l :
  store_inv db ->
  get_employee_attendance eid start_date end_date db = Ok l ->
  NoDup (map AttendanceResponse.date l) /\ NoDup l.
Proof.
  intros Hinv. unfold get_employee_attendance.
  destruct (employee_by_employee_id db eid); [ | discriminate ].
  intros H. injection H as <-.
  rewrite filter_if_date_range.
  assert (Hd : NoDup (map AttendanceResponse.date
                        (map to_response
                           (order_by_date_desc
                              (filter (fun a => in_range start_date end_date
                                                  (Attendance.date a))
                                 (filter (fun a => String.eqb
                                            (Attendance.employee_id a) eid)
                                         (attendance db))))))).
  { rewrite map_map. simpl.
    eapply Permutation_NoDup.
    - apply Permutation_map. symmetry. apply order_by_date_desc_perm.
    - apply NoDup_map_filter, NoDup_dates_of_employee.
      now apply inv_attendance_key. }
  split; [ exact Hd | ].
  eapply NoDup_map_inv. exact Hd.
Qed.

(** For an employee in the store, a range whose [start_date] is after
    its [end_date] is not an error: the listing is empty. *)
Theorem employee_listing_inverted_range eid start_date end_date db :
  has_employee db eid ->
  end_date < start_date ->
  get_employee_attendance eid (Some start_date) (Some end_date) db = Ok [].
Proof.
  intros Hhas Hlt. apply has_employee_found in Hhas.
  destruct Hhas as [e He].
  unfold get_employee_attendance. rewrite He, filter_if_date_range.
  rewrite filter_none; [ reflexivity | ].
  intros a _. unfold in_range. apply andb_false_iff.
  destruct (Z.leb_spec start_date (Attendance.date a)); [ right | now left ].
  apply Z.leb_gt. lia.
Qed.

(** ** The further theorems at work on sample data *)

Local Open Scope string_scope.

Lemma run_reachable rs db :
  reachable sample_validate_email db ->
  reachable sample_validate_email (run rs db).
Proof.
  revert db. induction rs as [| r rs IH]; simpl; intros db H;
    [ assumption | ].
  apply IH. now apply reachable_serve.
Qed.

Lemma store_two_reachable : reachable sample_validate_email store_two.
Proof.
  change store_two
    with (run [POST_employees body_alice;
               POST_employees body_bob;
               POST_attendance
                 (AttendanceBody.mk (Some "E001") (Some jan1) (Some true));
               POST_attendance
                 (AttendanceBody.mk (Some "E002") (Some jan1) (Some false));
               POST_attendance
                 (AttendanceBody.mk (Some "E001") (Some jan2) (Some false))]
              empty_store).
  apply run_reachable, reachable_empty.
Qed.

Lemma store_two_inv : store_inv store_two.
Proof. exact (reachable_inv _ _ store_two_reachable). Qed.

Lemma get_employee_outcome_witness :
  get_employee "E002" store_two = Ok bob
  /\ get_employee "E404" store_two = not_found "E404".
Proof.
  destruct (get_employee_outcome "E404" store_two store_two_inv)
    as (H1 & H2 & _).
  split.
  - apply (H2 bob). simpl. auto.
  - apply H1. simpl. intros [E | [E | []]]; discriminate.
Defined.

Lemma create_then_get_witness :
  get_employee "E002" (mkStore [alice; bob] [] 3 1) = Ok bob
  /\ list_employees (mkStore [alice; bob] [] 3 1)
     = (list_employees store_alice ++ [bob])%list
  /\ bob = Employee.mk 2 "E002" "Bob" "bob@x.com" "Ops".
Proof.
  apply (create_then_get (alone store_alice)
           (EmployeeCreate.mk "E002" "Bob" "bob@x.com" "Ops") store_alice).
  reflexivity.
Defined.

Lemma create_twice_conflict_witness :
  create_employee (alone store_alice)
    (EmployeeCreate.mk "E001" "Alice B" "other@x.com" "Ops") store_alice
  = (store_alice, HTTPException HTTP_409_CONFLICT EmployeeIdExists)
  /\ exists detail,
       create_employee (alone store_alice)
         (EmployeeCreate.mk "E009" "Alice B" "alice@x.com" "Ops") store_alice
       = (store_alice, HTTPException HTTP_409_CONFLICT detail).
Proof.
  assert (H : create_employee (alone empty_store)
                (EmployeeCreate.mk "E001" "Alice" "alice@x.com" "Eng")
                empty_store = (store_alice, Ok alice)) by reflexivity.
  split.
  - apply (proj1 (create_twice_conflict _ _ _ _ _
                    (EmployeeCreate.mk "E001" "Alice B" "other@x.com" "Ops")
                    H)).
    reflexivity.
  - apply (proj2 (create_twice_conflict _ _ _ _ _
                    (EmployeeCreate.mk "E009" "Alice B" "alice@x.com" "Ops")
                    H)).
    reflexivity.
Defined.

Lemma mark_then_list_witness :
  list_attendance (Some jan1) (Some "E001") store_alice_jan1
  = [AttendanceResponse.mk 1 "E001" jan1 true]
  /\ exists l,
       get_employee_attendance "E001" None None store_alice_jan1 = Ok l
       /\ In (AttendanceResponse.mk 1 "E001" jan1 true) l.
Proof.
  apply (mark_then_list (alone store_alice)
           (AttendanceCreate.mk "E001" jan1 true) store_alice).
  - exact store_alice_inv.
  - reflexivity.
Defined.

Lemma mark_then_summary_witness :
  exists s,
    get_attendance_summary "E001" store_alice = Ok s
    /\ get_attendance_summary "E001" store_alice_jan1
       = Ok (AttendanceSummary.mk
               (AttendanceSummary.employee_id s)
               (AttendanceSummary.full_name s)
               (AttendanceSummary.total_present_days s + 1)
               (AttendanceSummary.total_absent_days s + 0)).
Proof.
  apply (proj1 (mark_then_summary (alone store_alice)
                  (AttendanceCreate.mk "E001" jan1 true) store_alice
                  store_alice_jan1
                  (AttendanceResponse.mk 1 "E001" jan1 true) eq_refl)).
Defined.

Lemma summary_counts_the_listing_witness :
  exists l,
    get_employee_attendance "E001" None None store_two = Ok l
    /\ 1 = Z.of_nat (List.length (filter AttendanceResponse.is_present l))
    /\ 1 = Z.of_nat (List.length
                       (filter (fun r => negb (AttendanceResponse.is_present r))
                               l))
    /\ 1 + 1 = Z.of_nat (List.length l).
Proof.
  apply (summary_counts_the_listing "E001" store_two
           (AttendanceSummary.mk "E001" "Alice" 1 1)).
  reflexivity.
Defined.

Lemma employee_listing_is_filtered_list_witness :
  get_employee_attendance "E001" None None store_two
  = Ok (list_attendance None (Some "E001") store_two)
  /\ get_employee_attendance "E001" (Some jan1) (Some jan1) store_two
     = Ok (list_attendance (Some jan1) (Some "E001") store_two).
Proof.
  apply employee_listing_is_filtered_list.
  - left. reflexivity.
  - discriminate.
Defined.

Lemma mark_attendance_employee_gone_witness :
  mark_attendance (mkTxn store_alice None)
    (AttendanceCreate.mk "E001" jan1 true) empty_store
  = (empty_store, HTTPException HTTP_409_CONFLICT AttendanceRecordExists).
Proof.
  apply mark_attendance_employee_gone; simpl; auto.
  left. reflexivity.
Defined.

Lemma mark_attendance_400_iff_fault_witness :
  snd (mark_attendance
         (mkTxn store_alice (Some (RefreshFault "connection lost")))
         (AttendanceCreate.mk "E001" jan1 true) store_alice)
  = HTTPException HTTP_400_BAD_REQUEST
      (ErrorCreatingAttendance "connection lost")
  /\ fst (mark_attendance
            (mkTxn store_alice (Some (CommitFault "connection lost")))
            (AttendanceCreate.mk "E001" jan1 true) store_alice)
     = store_alice.
Proof.
  split.
  - apply (proj2 (proj1 (mark_attendance_400_iff_fault
                           (mkTxn store_alice
                                  (Some (RefreshFault "connection lost")))
                           (AttendanceCreate.mk "E001" jan1 true)
                           store_alice "connection lost"))).
    simpl. split; [ now left | ]. split; [ intros [] | ].
    right. split; [ reflexivity | ]. split; [ intros [] | now left ].
  - apply (proj1 (proj2 (mark_attendance_400_iff_fault
                           (mkTxn store_alice
                                  (Some (CommitFault "connection lost")))
                           (AttendanceCreate.mk "E001" jan1 true)
                           store_alice "connection lost"))).
    reflexivity.
Defined.

Lemma deleted_employee_is_gone_witness :
  let db' := mkStore [bob] [Attendance.mk 2 "E002" jan1 false] 3 4 in
  get_employee "E001" db' = not_found "E001"
  /\ (forall s e, get_employee_attendance "E001" s e db' = not_found "E001")
  /\ get_attendance_summary "E001" db' = not_found "E001"
  /\ delete_employee "E001" db' = (db', not_found "E001")
  /\ (forall d present,
         mark_attendance (alone db') (AttendanceCreate.mk "E001" d present)
                         db'
         = (db', not_found "E001")).
Proof.
  apply (deleted_employee_is_gone "E001" store_two).
  - exact store_two_inv.
  - reflexivity.
Defined.

Lemma delete_employee_frame_witness :
  let db' := mkStore [bob] [Attendance.mk 2 "E002" jan1 false] 3 4 in
  get_employee "E002" db' = get_employee "E002" store_two
  /\ (forall s e, get_employee_attendance "E002" s e db'
                  = get_employee_attendance "E002" s e store_two)
  /\ get_attendance_summary "E002" db'
     = get_attendance_summary "E002" store_two.
Proof.
  apply (delete_employee_frame "E001" "E002" store_two).
  - exact store_two_inv.
  - reflexivity.
  - discriminate.
Defined.

Lemma delete_then_create_witness :
  let db' := mkStore [bob] [Attendance.mk 2 "E002" jan1 false] 3 4 in
  exists db'' row,
    create_employee (alone db')
      (EmployeeCreate.mk "E001" "Alice Again" "alice@x.com" "Ops") db'
    = (db'', Ok row)
    /\ employees db'' = [bob; row]
    /\ attendance db'' = [Attendance.mk 2 "E002" jan1 false]
    /\ Employee.employee_id row = "E001"
    /\ Employee.full_name row = "Alice Again"
    /\ Employee.email row = "alice@x.com"
    /\ Employee.department row = "Ops".
Proof.
  apply (delete_then_create alice "Alice Again" "Ops" store_two).
  - exact store_two_inv.
  - left. reflexivity.
  - reflexivity.
Defined.

Lemma sequential_failures_come_from_checks_witness :
  HTTP_409_CONFLICT = HTTP_409_CONFLICT
  /\ (EmployeeIdExists = EmployeeIdExists \/ EmployeeIdExists = EmailExists).
Proof.
  apply (proj1 (sequential_failures_come_from_checks
                  (EmployeeCreate.mk "E001" "Alice" "alice@x.com" "Eng")
                  (AttendanceCreate.mk "E001" jan1 true) store_alice)).
  reflexivity.
Defined.

Lemma reachable_rows_in_bounds_witness :
  Forall employee_in_bounds (employees store_two)
  /\ Forall (fun a => (1 <= str_len (Attendance.employee_id a) <= 50)%Z)
            (attendance store_two).
Proof.
  apply (reachable_rows_in_bounds sample_validate_email).
  exact store_two_reachable.
Defined.

Lemma reachable_primary_keys_witness :
  NoDup (map Employee.id (employees store_two))
  /\ NoDup (map Attendance.id (attendance store_two))
  /\ Forall (fun e => (1 <= Employee.id e < employees_next_id store_two)%Z)
            (employees store_two)
  /\ Forall (fun a => (1 <= Attendance.id a < attendance_next_id store_two)%Z)
            (attendance store_two).
Proof.
  apply (reachable_primary_keys sample_validate_email).
  exact store_two_reachable.
Defined.

Lemma employee_listing_one_per_date_witness :
  let l := [AttendanceResponse.mk 3 "E001" jan2 false;
            AttendanceResponse.mk 1 "E001" jan1 true] in
  NoDup (map AttendanceResponse.date l) /\ NoDup l.
Proof.
  apply (employee_listing_one_per_date "E001" None None store_two).
  - exact store_two_inv.
  - reflexivity.
Defined.

Lemma employee_listing_inverted_range_witness :
  get_employee_attendance "E001" (Some jan2) (Some jan1) store_two = Ok [].
Proof.
  apply employee_listing_inverted_range.
  - left. reflexivity.
  - reflexivity.
Defined.
